(** * UFCx: the interface between FFCx-generated code and DOLFINx

    A development over [ffcx/codegeneration/ufcx.h].  The header holds the
    version macros, the integral-type enumeration, the four tabulation
    kernel typedefs and the three structures [ufcx_integral],
    [ufcx_expression] and [ufcx_form]. *)

From stdpp Require Import gmap strings list pretty.
From Stdlib Require Import ZArith Lia.

Local Open Scope string_scope.
Local Open Scope Z_scope.
Local Open Scope list_scope.

(** ** The version macros (ufcx.h, lines 13-24)

    The macros are object-like, so the preprocessor is modelled on
    preprocessing tokens: [#define] binds a name to a replacement list,
    [#if] picks a group, a use of a name is replaced by its (rescanned)
    replacement list, and translation phase 6 joins adjacent string
    literals. *)
Module Cpp.

Inductive pp_token :=
| PPNumber (n : N)
| StringLiteral (s : string)
| Identifier (x : string).

#[local] Unset Elimination Schemes.
Inductive directive :=
| Define (name : string) (replacement : list pp_token)
| IfElse (condition : list pp_token) (group else_group : list directive).
#[local] Set Elimination Schemes.

Abbreviation macros := (gmap string (list pp_token)).

(** Macro replacement with rescanning.  A name that is being replaced is
    not replaced again inside its own replacement list ([hide]); every
    nested replacement adds a name to [hide], so [S (size env)] levels are
    enough. *)
Fixpoint expand (fuel : nat) (env : macros) (hide : gset string)
    (ts : list pp_token) : list pp_token :=
  match fuel with
  | O => ts
  | S fuel' =>
      flat_map
        (fun t =>
           match t with
           | Identifier x =>
               if decide (x ∈ hide) then [t]
               else match env !! x with
                    | Some r => expand fuel' env ({[x]} ∪ hide) r
                    | None => [t]
                    end
           | _ => [t]
           end) ts
  end.

Definition expand_all (env : macros) (ts : list pp_token) : list pp_token :=
  expand (S (size env)) env ∅ ts.

(** The controlling expression of [#if]: after replacement, an identifier
    that is left counts as 0.  Only the single-token conditions of the
    header are evaluated. *)
Definition eval_condition (env : macros) (c : list pp_token) : option bool :=
  match expand_all env c with
  | [PPNumber n] => Some (negb (N.eqb n 0))
  | [Identifier _] => Some false
  | _ => None
  end.

Fixpoint run (d : directive) (env : macros) : macros :=
  match d with
  | Define x r => <[x := r]> env
  | IfElse c g e =>
      let fix run_group (ds : list directive) (env : macros) : macros :=
        match ds with
        | [] => env
        | d :: ds => run_group ds (run d env)
        end in
      match eval_condition env c with
      | Some true => run_group g env
      | Some false => run_group e env
      | None => env
      end
  end.

Definition run_all (ds : list directive) (env : macros) : macros :=
  fold_left (fun env d => run d env) ds env.

(** Translation phase 6: adjacent string literal tokens are concatenated. *)
Fixpoint concatenate_literals (ts : list pp_token) : list pp_token :=
  match ts with
  | [] => []
  | StringLiteral a :: rest =>
      match concatenate_literals rest with
      | StringLiteral b :: rest' => StringLiteral (String.append a b) :: rest'
      | rest' => StringLiteral a :: rest'
      end
  | t :: rest => t :: concatenate_literals rest
  end.

(** The characters a token contributes when the tokens are written one
    after the other. *)
Definition spelling (t : pp_token) : string :=
  match t with
  | PPNumber n => pretty n
  | StringLiteral s => s
  | Identifier x => x
  end.

Definition is_string_literal (ts : list pp_token) : Prop :=
  ∃ s, ts = [StringLiteral s].

End Cpp.

Import Cpp.

(** Lines 13-24 of the header, with the four numbers as parameters. *)
Definition version_directives (major minor maintenance release : N)
    : list directive :=
  [ Define "UFCX_VERSION_MAJOR" [PPNumber major];
    Define "UFCX_VERSION_MINOR" [PPNumber minor];
    Define "UFCX_VERSION_MAINTENANCE" [PPNumber maintenance];
    Define "UFCX_VERSION_RELEASE" [PPNumber release];
    IfElse [Identifier "UFCX_VERSION_RELEASE"]
      [ Define "UFCX_VERSION"
          [ Identifier "UFCX_VERSION_MAJOR"; StringLiteral ".";
            Identifier "UFCX_VERSION_MINOR"; StringLiteral ".";
            Identifier "UFCX_VERSION_MAINTENANCE" ] ]
      [ Define "UFCX_VERSION"
          [ Identifier "UFCX_VERSION_MAJOR"; StringLiteral ".";
            Identifier "UFCX_VERSION_MINOR"; StringLiteral ".";
            Identifier "UFCX_VERSION_MAINTENANCE"; StringLiteral ".dev0" ] ] ].

Definition UFCX_VERSION_MAJOR : N := 0.
Definition UFCX_VERSION_MINOR : N := 9.
Definition UFCX_VERSION_MAINTENANCE : N := 0.
Definition UFCX_VERSION_RELEASE : N := 0.

(** What a use of [UFCX_VERSION] becomes in a translation unit that
    includes the header: replaced, then passed through phase 6. *)
Definition UFCX_VERSION_with (major minor maintenance release : N)
    : list pp_token :=
  let env := run_all (version_directives major minor maintenance release) ∅ in
  concatenate_literals (expand_all env [Identifier "UFCX_VERSION"]).

Definition UFCX_VERSION : list pp_token :=
  UFCX_VERSION_with UFCX_VERSION_MAJOR UFCX_VERSION_MINOR
    UFCX_VERSION_MAINTENANCE UFCX_VERSION_RELEASE.

(** ** The integral-type enumeration (ufcx.h, lines 44-49) *)

Inductive ufcx_integral_type := cell | exterior_facet | interior_facet.

#[global] Instance ufcx_integral_type_eq_dec : EqDecision ufcx_integral_type.
Proof. solve_decision. Defined.

(** The enumerators as they are declared: a name and its initializer. *)
Definition ufcx_integral_type_decl : list (string * option Z) :=
  [ ("cell", Some 0); ("exterior_facet", Some 1); ("interior_facet", Some 2) ].

(** The value of an enumerator is its initializer when it has one, and one
    more than the previous enumerator (0 for the first) when it has none. *)
Fixpoint enum_values (next : Z) (decl : list (string * option Z))
    : list (string * Z) :=
  match decl with
  | [] => []
  | (x, init) :: decl' =>
      let v := default next init in
      (x, v) :: enum_values (v + 1) decl'
  end.

Definition enumerator_name (t : ufcx_integral_type) : string :=
  match t with
  | cell => "cell"
  | exterior_facet => "exterior_facet"
  | interior_facet => "interior_facet"
  end.

Definition integral_type_value (t : ufcx_integral_type) : Z :=
  match t with
  | cell => 0
  | exterior_facet => 1
  | interior_facet => 2
  end.

Definition integral_type_of_value (z : Z) : option ufcx_integral_type :=
  if decide (z = 0) then Some cell
  else if decide (z = 1) then Some exterior_facet
  else if decide (z = 2) then Some interior_facet
  else None.

Definition all_integral_types : list ufcx_integral_type :=
  [cell; exterior_facet; interior_facet].

(** ** The declarations of the header, as syntax

    Claims about the shape of the interface (how many kernel typedefs there
    are, what their parameters are, which fields a structure has) are
    statements about the declarations themselves, so the declarations of
    ufcx.h are transcribed in source order.  They are read as C: for a C++
    translation unit lines 29-40 turn [restrict] into [__restrict__] or
    into nothing, which changes no parameter list. *)
Module Decl.

Inductive ctype :=
| Tvoid | Tbool | Tchar | Tint | Tuint8 | Tuint64 | Tfloat | Tdouble
| Tcomplex (t : ctype)                 (* t _Complex *)
| Tconst (t : ctype)                   (* const t *)
| Tptr (t : ctype)                     (* t* *)
| Trestrict (t : ctype)                (* t restrict, t a pointer type *)
| Tnamed (name : string).              (* a typedef or structure name *)

#[global] Instance ctype_eq_dec : EqDecision ctype.
Proof. solve_decision. Defined.

Record parameter := Par { par_name : string; par_type : ctype }.

Record function_type :=
  Fn { fn_return : ctype; fn_params : list parameter }.

Record field := Fld { fld_name : string; fld_type : ctype }.

Inductive declaration :=
| DEnum (enumerators : list (string * option Z))
| DFunction (f : function_type)
| DStruct (fields : list field).

(* lines 85-89 *)
Definition ufcx_tabulate_tensor_float32 : function_type :=
  Fn Tvoid
    [ Par "A" (Trestrict (Tptr Tfloat));
      Par "w" (Trestrict (Tptr (Tconst Tfloat)));
      Par "c" (Trestrict (Tptr (Tconst Tfloat)));
      Par "coordinate_dofs" (Trestrict (Tptr (Tconst Tfloat)));
      Par "entity_local_index" (Trestrict (Tptr (Tconst Tint)));
      Par "quadrature_permutation" (Trestrict (Tptr (Tconst Tuint8))) ].

(* lines 95-99 *)
Definition ufcx_tabulate_tensor_float64 : function_type :=
  Fn Tvoid
    [ Par "A" (Trestrict (Tptr Tdouble));
      Par "w" (Trestrict (Tptr (Tconst Tdouble)));
      Par "c" (Trestrict (Tptr (Tconst Tdouble)));
      Par "coordinate_dofs" (Trestrict (Tptr (Tconst Tdouble)));
      Par "entity_local_index" (Trestrict (Tptr (Tconst Tint)));
      Par "quadrature_permutation" (Trestrict (Tptr (Tconst Tuint8))) ].

(* lines 105-109 *)
Definition ufcx_tabulate_tensor_complex64 : function_type :=
  Fn Tvoid
    [ Par "A" (Trestrict (Tptr (Tcomplex Tfloat)));
      Par "w" (Trestrict (Tptr (Tconst (Tcomplex Tfloat))));
      Par "c" (Trestrict (Tptr (Tconst (Tcomplex Tfloat))));
      Par "coordinate_dofs" (Trestrict (Tptr (Tconst Tfloat)));
      Par "entity_local_index" (Trestrict (Tptr (Tconst Tint)));
      Par "quadrature_permutation" (Trestrict (Tptr (Tconst Tuint8))) ].

(* lines 115-119 *)
Definition ufcx_tabulate_tensor_complex128 : function_type :=
  Fn Tvoid
    [ Par "A" (Trestrict (Tptr (Tcomplex Tdouble)));
      Par "w" (Trestrict (Tptr (Tconst (Tcomplex Tdouble))));
      Par "c" (Trestrict (Tptr (Tconst (Tcomplex Tdouble))));
      Par "coordinate_dofs" (Trestrict (Tptr (Tconst Tdouble)));
      Par "entity_local_index" (Trestrict (Tptr (Tconst Tint)));
      Par "quadrature_permutation" (Trestrict (Tptr (Tconst Tuint8))) ].

(* lines 121-132 *)
Definition ufcx_integral : list field :=
  [ Fld "enabled_coefficients" (Tptr (Tconst Tbool));
    Fld "tabulate_tensor_float32" (Tptr (Tnamed "ufcx_tabulate_tensor_float32"));
    Fld "tabulate_tensor_float64" (Tptr (Tnamed "ufcx_tabulate_tensor_float64"));
    Fld "tabulate_tensor_complex64"
      (Tptr (Tnamed "ufcx_tabulate_tensor_complex64"));
    Fld "tabulate_tensor_complex128"
      (Tptr (Tnamed "ufcx_tabulate_tensor_complex128"));
    Fld "needs_facet_permutations" Tbool;
    Fld "coordinate_element_hash" Tuint64 ].

(* lines 134-182 *)
Definition ufcx_expression : list field :=
  [ Fld "tabulate_tensor_float32" (Tptr (Tnamed "ufcx_tabulate_tensor_float32"));
    Fld "tabulate_tensor_float64" (Tptr (Tnamed "ufcx_tabulate_tensor_float64"));
    Fld "tabulate_tensor_complex64"
      (Tptr (Tnamed "ufcx_tabulate_tensor_complex64"));
    Fld "tabulate_tensor_complex128"
      (Tptr (Tnamed "ufcx_tabulate_tensor_complex128"));
    Fld "num_coefficients" Tint;
    Fld "num_constants" Tint;
    Fld "original_coefficient_positions" (Tptr (Tconst Tint));
    Fld "coefficient_names" (Tptr (Tptr (Tconst Tchar)));
    Fld "constant_names" (Tptr (Tptr (Tconst Tchar)));
    Fld "num_points" Tint;
    Fld "entity_dimension" Tint;
    Fld "points" (Tptr (Tconst Tdouble));
    Fld "value_shape" (Tptr (Tconst Tint));
    Fld "num_components" Tint;
    Fld "rank" Tint ].

(* lines 198-237 *)
Definition ufcx_form : list field :=
  [ Fld "signature" (Tptr (Tconst Tchar));
    Fld "rank" Tint;
    Fld "num_coefficients" Tint;
    Fld "num_constants" Tint;
    Fld "original_coefficient_positions" (Tptr Tint);
    Fld "coefficient_name_map" (Tptr (Tptr (Tconst Tchar)));
    Fld "constant_name_map" (Tptr (Tptr (Tconst Tchar)));
    Fld "finite_element_hashes" (Tptr Tuint64);
    Fld "form_integrals" (Tptr (Tptr (Tnamed "ufcx_integral")));
    Fld "form_integral_ids" (Tptr Tint);
    Fld "form_integral_offsets" (Tptr Tint) ].

(** Every type the header declares, in source order. *)
Definition header : list (string * declaration) :=
  [ ("ufcx_integral_type", DEnum ufcx_integral_type_decl);
    ("ufcx_tabulate_tensor_float32", DFunction ufcx_tabulate_tensor_float32);
    ("ufcx_tabulate_tensor_float64", DFunction ufcx_tabulate_tensor_float64);
    ("ufcx_tabulate_tensor_complex64",
      DFunction ufcx_tabulate_tensor_complex64);
    ("ufcx_tabulate_tensor_complex128",
      DFunction ufcx_tabulate_tensor_complex128);
    ("ufcx_integral", DStruct ufcx_integral);
    ("ufcx_expression", DStruct ufcx_expression);
    ("ufcx_form", DStruct ufcx_form) ].

Definition functions (h : list (string * declaration))
    : list (string * function_type) :=
  omap (fun d => match d.2 with DFunction f => Some (d.1, f) | _ => None end) h.

Definition structs (h : list (string * declaration))
    : list (string * list field) :=
  omap (fun d => match d.2 with DStruct fs => Some (d.1, fs) | _ => None end) h.

(** Reading a parameter type: the object type a pointer parameter points
    to, with and without its qualifiers. *)
Fixpoint unqualified (t : ctype) : ctype :=
  match t with
  | Tconst t' | Trestrict t' => unqualified t'
  | _ => t
  end.

Definition pointee (t : ctype) : option ctype :=
  match unqualified t with
  | Tptr t' => Some t'
  | _ => None
  end.

Definition points_to_const (t : ctype) : bool :=
  match pointee t with
  | Some (Tconst _) => true
  | _ => false
  end.

(** The element type of the array a pointer parameter refers to. *)
Definition element_type (t : ctype) : option ctype :=
  unqualified <$> pointee t.

Definition param_type (f : function_type) (x : string) : option ctype :=
  par_type <$> find (fun p => bool_decide (par_name p = x)) (fn_params f).

Definition param_element (f : function_type) (x : string) : option ctype :=
  param_type f x ≫= element_type.

(** The innermost type under all pointers and qualifiers. *)
Fixpoint base_type (t : ctype) : ctype :=
  match t with
  | Tconst t' | Trestrict t' | Tptr t' => base_type t'
  | _ => t
  end.

(** The function type a field points to, when the field is a pointer to
    one of the function typedefs of [h]. *)
Definition field_function (h : list (string * declaration)) (fld : field)
    : option function_type :=
  match base_type (fld_type fld) with
  | Tnamed x => snd <$> find (fun d => bool_decide (d.1 = x)) (functions h)
  | _ => None
  end.

Definition function_fields (h : list (string * declaration))
    (fs : list field) : list (string * function_type) :=
  omap (fun fld => pair (fld_name fld) <$> field_function h fld) fs.

Definition field_names (fs : list field) : list string := fld_name <$> fs.

(** The parameters a function can write through. *)
Definition writable_parameters (f : function_type) : list string :=
  par_name <$>
    filter (fun p => points_to_const (par_type p) = false) (fn_params f).

(** Whether a parameter refers to one of the structures of [h]. *)
Definition refers_to_struct (h : list (string * declaration)) (p : parameter)
    : Prop :=
  ∃ x, base_type (par_type p) = Tnamed x ∧ x ∈ (structs h).*1.

#[global] Instance refers_to_struct_dec h p : Decision (refers_to_struct h p).
Proof.
  unfold refers_to_struct.
  destruct (base_type (par_type p)) as [| | | | | | | | | | | | x];
    try (right; intros [? [? _]]; discriminate).
  destruct (decide (x ∈ (structs h).*1)) as [Hin|Hout].
  - left. eauto.
  - right. intros [y [[= <-] ?]]. done.
Defined.

Definition is_complex (t : ctype) : bool :=
  match t with Tcomplex _ => true | _ => false end.

(** The real type a scalar type is built on. *)
Definition real_type (t : ctype) : ctype :=
  match t with Tcomplex t' => t' | _ => t end.

End Decl.

(** ** Scalars

    A scalar is kept as its object representation: the header does no
    arithmetic on it. *)

Record float := Float32 { float_bits : Z }.
Record double := Float64 { double_bits : Z }.
Record complex (R : Type) := Complex { creal : R; cimag : R }.
Arguments Complex {R} _ _.
Arguments creal {R} _.
Arguments cimag {R} _.

(** ** Tabulation kernels (ufcx.h, lines 53-119) *)

Module Tabulate.

(** What a kernel is handed through its five [const] parameters. *)
Record args (T X : Type) := Args {
  w : list T;
  c : list T;
  coordinate_dofs : list X;
  entity_local_index : option (list Z);
  quadrature_permutation : option (list Z)
}.
Arguments Args {T X} _ _ _ _ _.
Arguments w {T X} _.
Arguments c {T X} _.
Arguments coordinate_dofs {T X} _.
Arguments entity_local_index {T X} _.
Arguments quadrature_permutation {T X} _.

End Tabulate.

(** Modelled from the spec: the kernel bodies are generated code and are not
    part of the header, which only declares their type.  Following the
    spec, a kernel is "a function reference ... that writes a local tensor
    [A] given coefficient values [w], constants [c], element geometry
    [coordinate_dofs], an optional local entity index, and an optional
    facet-orientation permutation code", and kernels are "pure functions
    over caller-supplied buffers": the body maps what the [const]
    parameters refer to, to the entries written to [A].  [T] is the scalar
    type of [A], [w] and [c]; [X] that of [coordinate_dofs]. *)
Definition kernel (T X : Type) : Type := Tabulate.args T X → list T.

(** The four typedefs, with the scalar types of lines 85-119. *)
Definition ufcx_tabulate_tensor_float32 : Type := kernel float float.
Definition ufcx_tabulate_tensor_float64 : Type := kernel double double.
Definition ufcx_tabulate_tensor_complex64 : Type :=
  kernel (complex float) float.
Definition ufcx_tabulate_tensor_complex128 : Type :=
  kernel (complex double) double.

(** ** The structures (ufcx.h, lines 121-237)

    An [int] is kept as an integer, a [uint64_t] hash as a natural number
    below [2^64], a pointer to an array as the array, and a kernel pointer
    as the kernel or [None] when it is null. *)

Module Integral.

Record ufcx_integral := {
  enabled_coefficients : list bool;
  tabulate_tensor_float32 : option ufcx_tabulate_tensor_float32;
  tabulate_tensor_float64 : option ufcx_tabulate_tensor_float64;
  tabulate_tensor_complex64 : option ufcx_tabulate_tensor_complex64;
  tabulate_tensor_complex128 : option ufcx_tabulate_tensor_complex128;
  needs_facet_permutations : bool;
  coordinate_element_hash : Z
}.

End Integral.

Abbreviation ufcx_integral := Integral.ufcx_integral.

Module Expression.

Record ufcx_expression := {
  tabulate_tensor_float32 : option ufcx_tabulate_tensor_float32;
  tabulate_tensor_float64 : option ufcx_tabulate_tensor_float64;
  tabulate_tensor_complex64 : option ufcx_tabulate_tensor_complex64;
  tabulate_tensor_complex128 : option ufcx_tabulate_tensor_complex128;
  num_coefficients : Z;
  num_constants : Z;
  original_coefficient_positions : list Z;
  coefficient_names : list string;
  constant_names : list string;
  num_points : Z;
  entity_dimension : Z;
  points : list double;
  value_shape : list Z;
  num_components : Z;
  rank : Z
}.

End Expression.

Abbreviation ufcx_expression := Expression.ufcx_expression.

Module Form.

Record ufcx_form := {
  signature : string;
  rank : Z;
  num_coefficients : Z;
  num_constants : Z;
  original_coefficient_positions : list Z;
  coefficient_name_map : list string;
  constant_name_map : list string;
  finite_element_hashes : list Z;
  form_integrals : list ufcx_integral;
  form_integral_ids : list Z;
  form_integral_offsets : list Z
}.

End Form.

Abbreviation ufcx_form := Form.ufcx_form.

(** *** Reading a form *)

(** The entries of [l] from index [lo] up to, not including, [hi]. *)
Definition slice {A} (lo hi : Z) (l : list A) : list A :=
  take (Z.to_nat (hi - lo)) (drop (Z.to_nat lo) l).

(** Modelled from the spec: the library that reads a [ufcx_form] is not
    part of the header.  The spec has the offsets "partitioning that list
    by integral kind", "in enum order", with a sentinel: the integrals of
    type [t], with their ids, are the entries from
    [form_integral_offsets[t]] up to [form_integral_offsets[t + 1]]. *)
Definition integrals_of_type (f : ufcx_form) (t : ufcx_integral_type)
    : option (list (Z * ufcx_integral)) :=
  lo ← Form.form_integral_offsets f !! Z.to_nat (integral_type_value t);
  hi ← Form.form_integral_offsets f !! Z.to_nat (integral_type_value t + 1);
  Some (zip (slice lo hi (Form.form_integral_ids f))
            (slice lo hi (Form.form_integrals f))).

(** The finite element hash of argument function [i], [0 <= i < r + n]. *)
Definition finite_element_hash (f : ufcx_form) (i : Z) : option Z :=
  if decide (0 ≤ i) then Form.finite_element_hashes f !! Z.to_nat i else None.

(** *** Building a form *)

(** What a form is built from for one coefficient: its original position,
    its name and the hash of its finite element. *)
Record coefficient := Coefficient {
  coefficient_position : Z;
  coefficient_name : string;
  coefficient_element_hash : Z
}.

(** Modelled from the spec: offsets "partitioning that list by integral
    kind", running totals of the group sizes: the first offset, then one
    more offset per group, the last one being the sentinel. *)
Fixpoint offsets_from (start : Z) (counts : list nat) : list Z :=
  start ::
  match counts with
  | [] => []
  | n :: counts' => offsets_from (start + Z.of_nat n) counts'
  end.

(** Modelled from the spec: the generator that emits a [ufcx_form] is not
    part of the header.  The spec describes the form as "a signature string,
    rank (number of test/trial arguments), coefficient/constant counts and
    name/position maps, a hash per argument/coefficient's finite element,
    and three parallel arrays encoding the list of integrals, their numeric
    IDs, and offsets partitioning that list by integral kind", "in enum
    order", the offsets array having "length 4, three kinds + sentinel";
    the header documents [finite_element_hashes] as indexed by the
    arguments first and the coefficients after them (lines 221-225).  The
    counts are taken to fit an [int]. *)
Definition make_form (signature : string) (argument_hashes : list Z)
    (coefficients : list coefficient) (constants : list string)
    (integrals : ufcx_integral_type → list (Z * ufcx_integral)) : ufcx_form :=
  let by_type := integrals <$> all_integral_types in
  {| Form.signature := signature;
     Form.rank := Z.of_nat (length argument_hashes);
     Form.num_coefficients := Z.of_nat (length coefficients);
     Form.num_constants := Z.of_nat (length constants);
     Form.original_coefficient_positions :=
       coefficient_position <$> coefficients;
     Form.coefficient_name_map := coefficient_name <$> coefficients;
     Form.constant_name_map := constants;
     Form.finite_element_hashes :=
       argument_hashes ++ (coefficient_element_hash <$> coefficients);
     Form.form_integrals := (concat by_type).*2;
     Form.form_integral_ids := (concat by_type).*1;
     Form.form_integral_offsets := offsets_from 0 (length <$> by_type) |}.

(** ** Flat storage

    The header documents its arrays with their extents, as in
    [w[coefficient][restriction][dof]] (line 59),
    [coordinate_dofs[restriction][num_dofs][3]] (line 68) and
    [A[num_points][num_components][num_argument_dofs]] (line 139).  Entry
    [[i][j][l]] of an array with the extents [[..][n2][n3]] is stored at: *)
Definition index3 (n2 n3 : nat) (i j l : nat) : nat :=
  ((i * n2 + j) * n3 + l)%nat.

(** ** A small instance

    A form with two arguments, two coefficients, one constant and three
    integrals, used to run the definitions above; its kernel copies the
    coefficients and constants it is given. *)

Definition example_body : kernel double double :=
  fun a => Tabulate.w a ++ Tabulate.c a.

Definition example_integral (t : ufcx_integral_type) : ufcx_integral :=
  {| Integral.enabled_coefficients := [true];
     Integral.tabulate_tensor_float32 := None;
     Integral.tabulate_tensor_float64 := Some example_body;
     Integral.tabulate_tensor_complex64 := None;
     Integral.tabulate_tensor_complex128 := None;
     Integral.needs_facet_permutations := bool_decide (t = interior_facet);
     Integral.coordinate_element_hash := 99 |}.

Definition example_integrals (t : ufcx_integral_type)
    : list (Z * ufcx_integral) :=
  match t with
  | cell => [(-1, example_integral cell); (3, example_integral cell)]
  | exterior_facet => []
  | interior_facet => [(5, example_integral interior_facet)]
  end.

Definition example_form : ufcx_form :=
  make_form "a" [11; 22]
    [Coefficient 0 "f" 33; Coefficient 1 "g" 44] ["k"] example_integrals.

(** ** The header as a file to preprocess (ufcx.h, lines 11-40, 239-242)

    Besides the version macros the header has [#pragma once], two
    [#include]s, a block that wraps the declarations in [extern "C"] and
    defines [restrict] as a macro for a C++ translation unit, and a closing
    block that removes the macro again.  The header is modelled line by
    line: directives change the macros, text lines are replaced and added
    to the output. *)
Module Pp.

(** Text is made of the preprocessing tokens of [Cpp] and of punctuators;
    keywords are identifiers to the preprocessor. *)
Inductive token :=
| Word (t : pp_token)
| Punctuator (s : string).

#[global] Instance pp_token_eq_dec : EqDecision pp_token.
Proof. solve_decision. Defined.

#[global] Instance token_eq_dec : EqDecision token.
Proof. solve_decision. Defined.

(** The controlling expressions the header uses: [#ifdef x] and
    [defined(x)], [||], and a constant expression as in [Cpp]. *)
Inductive condition :=
| Defined (x : string)
| Or (a b : condition)
| Expression (ts : list pp_token).

(** [#if c] group [#else] else_group [#endif]; an [#elif] is the [#if] that
    makes up the else group. *)
#[local] Unset Elimination Schemes.
Inductive line :=
| LPragmaOnce
| LDefine (x : string) (replacement : list pp_token)
| LUndef (x : string)
| LInclude (header : string)
| LIf (c : condition) (group else_group : list line)
| LText (ts : list token).
#[local] Set Elimination Schemes.

(** *** Lexing text

    The text lines are kept as they are written and split into tokens:
    identifiers, decimal numbers and one-character punctuators, separated
    by white space. *)

Definition is_digit (a : Ascii.ascii) : bool :=
  let n := Ascii.nat_of_ascii a in (48 <=? n)%nat && (n <=? 57)%nat.

Definition is_letter (a : Ascii.ascii) : bool :=
  let n := Ascii.nat_of_ascii a in
  ((65 <=? n)%nat && (n <=? 90)%nat) || ((97 <=? n)%nat && (n <=? 122)%nat)
  || (n =? 95)%nat.

Definition is_space (a : Ascii.ascii) : bool :=
  let n := Ascii.nat_of_ascii a in
  (n =? 32)%nat || (n =? 10)%nat || (n =? 9)%nat || (n =? 13)%nat.

Definition digit_value (a : Ascii.ascii) : N :=
  N.of_nat (Ascii.nat_of_ascii a - 48).

Inductive partial :=
| NoWord
| InIdentifier (s : string)
| InNumber (n : N).

Definition flush (p : partial) : list token :=
  match p with
  | NoWord => []
  | InIdentifier s => [Word (Identifier s)]
  | InNumber n => [Word (PPNumber n)]
  end.

Definition snoc (s : string) (a : Ascii.ascii) : string :=
  String.append s (String a EmptyString).

Fixpoint lex_from (p : partial) (s : string) : list token :=
  match s with
  | EmptyString => flush p
  | String a s' =>
      if is_digit a then
        match p with
        | NoWord => lex_from (InNumber (digit_value a)) s'
        | InNumber n => lex_from (InNumber (10 * n + digit_value a)) s'
        | InIdentifier w => lex_from (InIdentifier (snoc w a)) s'
        end
      else if is_letter a then
        match p with
        | InIdentifier w => lex_from (InIdentifier (snoc w a)) s'
        | _ => flush p ++ lex_from (InIdentifier (snoc EmptyString a)) s'
        end
      else if is_space a then flush p ++ lex_from NoWord s'
      else flush p ++ Punctuator (String a EmptyString) :: lex_from NoWord s'
  end.

Definition lex (s : string) : list token := lex_from NoWord s.

(** *** Running the lines *)

Record state := State {
  st_macros : gmap string (list pp_token);
  st_once : gset string;
  st_output : list token
}.

Fixpoint eval (env : gmap string (list pp_token)) (c : condition)
    : option bool :=
  match c with
  | Defined x => Some (bool_decide (is_Some (env !! x)))
  | Or a b =>
      match eval env a with
      | Some true => Some true
      | Some false => eval env b
      | None => None
      end
  | Expression ts => eval_condition env ts
  end.

(** Macro replacement of a text line. *)
Definition emit (env : gmap string (list pp_token)) (ts : list token)
    : list token :=
  flat_map
    (fun t =>
       match t with
       | Word w => Word <$> expand_all env [w]
       | Punctuator _ => [t]
       end) ts.

(** One line of the file [file].  [sys] is what including a system header
    does to the macros; the text of a system header is not part of the
    output. *)
Fixpoint run_line
    (sys : string → gmap string (list pp_token) → gmap string (list pp_token))
    (file : string) (l : line) (st : state) : state :=
  match l with
  | LPragmaOnce =>
      State (st_macros st) ({[file]} ∪ st_once st) (st_output st)
  | LDefine x r =>
      State (<[x := r]> (st_macros st)) (st_once st) (st_output st)
  | LUndef x =>
      State (delete x (st_macros st)) (st_once st) (st_output st)
  | LInclude h =>
      State (sys h (st_macros st)) (st_once st) (st_output st)
  | LIf c g e =>
      let fix run_group (ls : list line) (st : state) : state :=
        match ls with
        | [] => st
        | l :: ls => run_group ls (run_line sys file l st)
        end in
      match eval (st_macros st) c with
      | Some true => run_group g st
      | Some false => run_group e st
      | None => st
      end
  | LText ts =>
      State (st_macros st) (st_once st)
        (st_output st ++ emit (st_macros st) ts)
  end.

Definition run_lines
    (sys : string → gmap string (list pp_token) → gmap string (list pp_token))
    (file : string) (ls : list line) (st : state) : state :=
  fold_left (fun st l => run_line sys file l st) ls st.

(** [#include "file"]: a file that was marked [#pragma once] is skipped. *)
Definition include
    (sys : string → gmap string (list pp_token) → gmap string (list pp_token))
    (file : string) (ls : list line) (st : state) : state :=
  if decide (file ∈ st_once st) then st else run_lines sys file ls st.

(** The directives of [Cpp] are lines. *)
Fixpoint of_directive (d : directive) : line :=
  match d with
  | Define x r => LDefine x r
  | IfElse c g e =>
      LIf (Expression c) (map of_directive g) (map of_directive e)
  end.

(** *** Reading the output *)

(** The depth of braces after [ts], starting at [depth]; [None] when a
    brace is closed that was not opened. *)
Fixpoint nesting (depth : nat) (ts : list token) : option nat :=
  match ts with
  | [] => Some depth
  | t :: ts' =>
      if decide (t = Punctuator "{") then nesting (S depth) ts'
      else if decide (t = Punctuator "}") then
        match depth with
        | O => None
        | S d => nesting d ts'
        end
      else nesting depth ts'
  end.



Definition text_of (l : line) : list token :=
  match l with LText ts => ts | _ => [] end.

Definition is_text (l : line) : bool :=
  match l with LText _ => true | _ => false end.

Definition includes_of (ls : list line) : list string :=
  omap (fun l => match l with LInclude h => Some h | _ => None end) ls.

End Pp.

(** Lines 13-24. *)
Definition ufcx_h_version : list Pp.line :=
  Pp.of_directive <$>
    version_directives UFCX_VERSION_MAJOR UFCX_VERSION_MINOR
      UFCX_VERSION_MAINTENANCE UFCX_VERSION_RELEASE.

(** Lines 26-27. *)
Definition ufcx_h_includes : list Pp.line :=
  [ Pp.LInclude "stdbool.h"; Pp.LInclude "stdint.h" ].

(** Lines 29-40. *)
Definition ufcx_h_prologue : Pp.line :=
  Pp.LIf (Pp.Defined "__cplusplus")
    [ Pp.LText
        [ Pp.Word (Identifier "extern"); Pp.Word (StringLiteral "C");
          Pp.Punctuator "{" ];
      Pp.LIf (Pp.Defined "__clang__")
        [ Pp.LDefine "restrict" [] ]
        [ Pp.LIf (Pp.Or (Pp.Defined "__GNUC__") (Pp.Defined "__GNUG__"))
            [ Pp.LDefine "restrict" [Identifier "__restrict__"] ]
            [ Pp.LDefine "restrict" [] ] ] ]
    [].

(** Lines 42-237, without the comments. *)
Definition ufcx_h_declarations : list Pp.line :=
  [
    (* lines 44-49 *)
    Pp.LText (Pp.lex
    "typedef enum
     {
     cell = 0,
     exterior_facet = 1,
     interior_facet = 2
     } ufcx_integral_type;");
    (* lines 85-89 *)
    Pp.LText (Pp.lex
    "typedef void(ufcx_tabulate_tensor_float32)(
     float* restrict A, const float* restrict w,
     const float* restrict c, const float* restrict coordinate_dofs,
     const int* restrict entity_local_index,
     const uint8_t* restrict quadrature_permutation);");
    (* lines 95-99 *)
    Pp.LText (Pp.lex
    "typedef void(ufcx_tabulate_tensor_float64)(
     double* restrict A, const double* restrict w,
     const double* restrict c, const double* restrict coordinate_dofs,
     const int* restrict entity_local_index,
     const uint8_t* restrict quadrature_permutation);");
    (* lines 105-109 *)
    Pp.LText (Pp.lex
    "typedef void(ufcx_tabulate_tensor_complex64)(
     float _Complex* restrict A, const float _Complex* restrict w,
     const float _Complex* restrict c, const float* restrict coordinate_dofs,
     const int* restrict entity_local_index,
     const uint8_t* restrict quadrature_permutation);");
    (* lines 115-119 *)
    Pp.LText (Pp.lex
    "typedef void(ufcx_tabulate_tensor_complex128)(
     double _Complex* restrict A, const double _Complex* restrict w,
     const double _Complex* restrict c, const double* restrict coordinate_dofs,
     const int* restrict entity_local_index,
     const uint8_t* restrict quadrature_permutation);");
    (* lines 121-132 *)
    Pp.LText (Pp.lex
    "typedef struct ufcx_integral
     {
     const bool* enabled_coefficients;
     ufcx_tabulate_tensor_float32* tabulate_tensor_float32;
     ufcx_tabulate_tensor_float64* tabulate_tensor_float64;
     ufcx_tabulate_tensor_complex64* tabulate_tensor_complex64;
     ufcx_tabulate_tensor_complex128* tabulate_tensor_complex128;
     bool needs_facet_permutations;
     uint64_t coordinate_element_hash;
     } ufcx_integral;");
    (* lines 134-182 *)
    Pp.LText (Pp.lex
    "typedef struct ufcx_expression
     {
     ufcx_tabulate_tensor_float32* tabulate_tensor_float32;
     ufcx_tabulate_tensor_float64* tabulate_tensor_float64;
     ufcx_tabulate_tensor_complex64* tabulate_tensor_complex64;
     ufcx_tabulate_tensor_complex128* tabulate_tensor_complex128;
     int num_coefficients;
     int num_constants;
     const int* original_coefficient_positions;
     const char** coefficient_names;
     const char** constant_names;
     int num_points;
     int entity_dimension;
     const double* points;
     const int* value_shape;
     int num_components;
     int rank;
     } ufcx_expression;");
    (* lines 198-237 *)
    Pp.LText (Pp.lex
    "typedef struct ufcx_form
     {
     const char* signature;
     int rank;
     int num_coefficients;
     int num_constants;
     int* original_coefficient_positions;
     const char** coefficient_name_map;
     const char** constant_name_map;
     uint64_t* finite_element_hashes;
     ufcx_integral** form_integrals;
     int* form_integral_ids;
     int* form_integral_offsets;
     } ufcx_form;") ].

(** Lines 239-242. *)
Definition ufcx_h_epilogue : Pp.line :=
  Pp.LIf (Pp.Defined "__cplusplus")
    [ Pp.LUndef "restrict"; Pp.LText [Pp.Punctuator "}"] ]
    [].

(** The whole header: line 11, then the parts above in source order. *)
Definition ufcx_h : list Pp.line :=
  [Pp.LPragmaOnce] ++ ufcx_h_version ++ ufcx_h_includes ++
  [ufcx_h_prologue] ++ ufcx_h_declarations ++ [ufcx_h_epilogue].

(** The tokens of the declarations. *)
Definition declaration_tokens : list Pp.token :=
  ufcx_h_declarations ≫= Pp.text_of.

(** The macros when the declarations are reached: after the version block
    and the two system headers. *)
Definition macros_at_declarations
    (sys : string → gmap string (list pp_token) → gmap string (list pp_token))
    (env : gmap string (list pp_token)) : gmap string (list pp_token) :=
  sys "stdint.h"
    (sys "stdbool.h"
       (run_all
          (version_directives UFCX_VERSION_MAJOR UFCX_VERSION_MINOR
             UFCX_VERSION_MAINTENANCE UFCX_VERSION_RELEASE) env)).

(** What the header adds to the output. *)
Definition emitted
    (sys : string → gmap string (list pp_token) → gmap string (list pp_token))
    (st : Pp.state) : list Pp.token :=
  drop (length (Pp.st_output st))
    (Pp.st_output (Pp.include sys "ufcx.h" ufcx_h st)).

(** What lines 33-39 make of [restrict] in a C++ translation unit, by the
    compiler macros that are defined. *)
Definition restrict_replacement (env : gmap string (list pp_token))
    : list pp_token :=
  if decide (is_Some (env !! "__clang__")) then []
  else if decide (is_Some (env !! "__GNUC__") ∨ is_Some (env !! "__GNUG__"))
  then [Identifier "__restrict__"]
  else [].



(** ** Reading declarations from tokens

    A reader for the declarations the header is made of: an enumeration,
    function typedefs and structure typedefs, each declarator being an
    optional [const], a type name, an optional [_Complex], pointers and
    [restrict] qualifiers, and the declared name.  It turns the text of the
    header into the declarations of [Decl]. *)
Module Parse.

Definition is_word (x : string) (t : Pp.token) : bool :=
  bool_decide (t = Pp.Word (Identifier x)).

Definition is_punctuator (x : string) (t : Pp.token) : bool :=
  bool_decide (t = Pp.Punctuator x).

Definition base_type_of (x : string) : Decl.ctype :=
  if decide (x = "void") then Decl.Tvoid
  else if decide (x = "bool" ∨ x = "_Bool") then Decl.Tbool
  else if decide (x = "char") then Decl.Tchar
  else if decide (x = "int") then Decl.Tint
  else if decide (x = "uint8_t") then Decl.Tuint8
  else if decide (x = "uint64_t") then Decl.Tuint64
  else if decide (x = "float") then Decl.Tfloat
  else if decide (x = "double") then Decl.Tdouble
  else Decl.Tnamed x.

(** [const]opt name [_Complex]opt *)
Definition specifier (ts : list Pp.token)
    : option (Decl.ctype * list Pp.token) :=
  let '(is_const, ts1) :=
    match ts with
    | t :: ts' => if is_word "const" t then (true, ts') else (false, ts)
    | [] => (false, ts)
    end in
  match ts1 with
  | Pp.Word (Identifier b) :: ts2 =>
      let '(t, ts3) :=
        match ts2 with
        | t' :: ts' =>
            if is_word "_Complex" t'
            then (Decl.Tcomplex (base_type_of b), ts')
            else (base_type_of b, ts2)
        | [] => (base_type_of b, ts2)
        end in
      Some (if is_const then Decl.Tconst t else t, ts3)
  | _ => None
  end.

(** The pointers and [restrict] qualifiers (in either spelling) that
    follow. *)
Fixpoint pointers (t : Decl.ctype) (ts : list Pp.token)
    : Decl.ctype * list Pp.token :=
  match ts with
  | t' :: ts' =>
      if is_punctuator "*" t' then pointers (Decl.Tptr t) ts'
      else if is_word "restrict" t' || is_word "__restrict__" t'
      then pointers (Decl.Trestrict t) ts'
      else (t, ts)
  | [] => (t, ts)
  end.

Definition declarator (ts : list Pp.token)
    : option (string * Decl.ctype * list Pp.token) :=
  match specifier ts with
  | Some (t, ts1) =>
      match pointers t ts1 with
      | (t', Pp.Word (Identifier x) :: ts2) => Some (x, t', ts2)
      | _ => None
      end
  | None => None
  end.

(** declarator [,] declarator ... [)] *)
Fixpoint parameters (fuel : nat) (ts : list Pp.token)
    : option (list Decl.parameter * list Pp.token) :=
  match fuel with
  | O => None
  | S fuel' =>
      match declarator ts with
      | Some (x, t, sep :: ts1) =>
          if is_punctuator ")" sep then Some ([Decl.Par x t], ts1)
          else if is_punctuator "," sep then
            match parameters fuel' ts1 with
            | Some (ps, ts2) => Some (Decl.Par x t :: ps, ts2)
            | None => None
            end
          else None
      | _ => None
      end
  end.

(** declarator [;] ... [}] *)
Fixpoint fields (fuel : nat) (ts : list Pp.token)
    : option (list Decl.field * list Pp.token) :=
  match fuel with
  | O => None
  | S fuel' =>
      match ts with
      | [] => None
      | t :: ts' =>
          if is_punctuator "}" t then Some ([], ts')
          else
            match declarator ts with
            | Some (x, ty, sep :: ts1) =>
                if is_punctuator ";" sep then
                  match fields fuel' ts1 with
                  | Some (fs, ts2) => Some (Decl.Fld x ty :: fs, ts2)
                  | None => None
                  end
                else None
            | _ => None
            end
      end
  end.

(** name [= number]opt [,] ... [}] *)
Fixpoint enumerators (fuel : nat) (ts : list Pp.token)
    : option (list (string * option Z) * list Pp.token) :=
  match fuel, ts with
  | S fuel', Pp.Word (Identifier x) :: ts1 =>
      let '(init, ts2) :=
        match ts1 with
        | eq :: Pp.Word (PPNumber n) :: ts' =>
            if is_punctuator "=" eq then (Some (Z.of_N n), ts')
            else (None, ts1)
        | _ => (None, ts1)
        end in
      match ts2 with
      | sep :: ts3 =>
          if is_punctuator "}" sep then Some ([(x, init)], ts3)
          else if is_punctuator "," sep then
            match enumerators fuel' ts3 with
            | Some (es, ts4) => Some ((x, init) :: es, ts4)
            | None => None
            end
          else None
      | [] => None
      end
  | _, _ => None
  end.

(** One [typedef], up to and including its semicolon. *)
Definition declaration (ts : list Pp.token)
    : option ((string * Decl.declaration) * list Pp.token) :=
  match ts with
  | td :: ts0 =>
      if negb (is_word "typedef" td) then None
      else
        match ts0 with
        | k :: open :: ts1 =>
            if is_word "enum" k && is_punctuator "{" open then
              match enumerators (length ts1) ts1 with
              | Some (es, Pp.Word (Identifier x) :: semi :: ts2) =>
                  if is_punctuator ";" semi
                  then Some ((x, Decl.DEnum es), ts2) else None
              | _ => None
              end
            else if is_word "struct" k then
              match ts1 with
              | open' :: ts1' =>
                  if is_punctuator "{" open' then
                    match fields (length ts1') ts1' with
                    | Some (fs, Pp.Word (Identifier x) :: semi :: ts2) =>
                        if is_punctuator ";" semi
                        then Some ((x, Decl.DStruct fs), ts2) else None
                    | _ => None
                    end
                  else None
              | [] => None
              end
            else
              match specifier ts0 with
              | Some (ret, ts2) =>
                  match pointers ret ts2 with
                  | (ret', o1 :: Pp.Word (Identifier x) :: c1 :: o2 :: ts3) =>
                      if is_punctuator "(" o1 && is_punctuator ")" c1
                         && is_punctuator "(" o2 then
                        match parameters (length ts3) ts3 with
                        | Some (ps, semi :: ts4) =>
                            if is_punctuator ";" semi
                            then Some ((x, Decl.DFunction (Decl.Fn ret' ps)),
                                       ts4)
                            else None
                        | _ => None
                        end
                      else None
                  | _ => None
                  end
              | None => None
              end
        | _ => None
        end
  | [] => None
  end.





End Parse.

(** ** The permutation code (ufcx.h, lines 76-80)

    "If an integer of value N is passed in, then floor(N / 2) gives the
    number of rotations to apply to the facet, N % 2 gives the number of
    reflections to apply to the facet." *)

Definition rotations (code : Z) : Z := code / 2.

Definition reflections (code : Z) : Z := code mod 2.

(** ** Names in the declarations *)

Module Names.

(** The typedef and structure names a type refers to. *)
Fixpoint named_in (t : Decl.ctype) : list string :=
  match t with
  | Decl.Tnamed x => [x]
  | Decl.Tcomplex t' | Decl.Tconst t' | Decl.Tptr t' | Decl.Trestrict t' =>
      named_in t'
  | _ => []
  end.

Definition uses (d : Decl.declaration) : list string :=
  match d with
  | Decl.DEnum _ => []
  | Decl.DFunction f =>
      named_in (Decl.fn_return f) ++
      (Decl.fn_params f ≫= fun p => named_in (Decl.par_type p))
  | Decl.DStruct fs => fs ≫= fun fld => named_in (Decl.fld_type fld)
  end.

(** The identifiers a declaration puts in the file scope: its name and,
    for an enumeration, the enumerators. *)
Definition declares (d : string * Decl.declaration) : list string :=
  match d.2 with
  | Decl.DEnum es => es.*1 ++ [d.1]
  | _ => [d.1]
  end.

(** The names inside a declaration: fields, parameters, enumerators. *)
Definition members (d : Decl.declaration) : list string :=
  match d with
  | Decl.DEnum es => es.*1
  | Decl.DFunction f => Decl.par_name <$> Decl.fn_params f
  | Decl.DStruct fs => Decl.fld_name <$> fs
  end.

(** The system header a type comes from: [bool] is from [stdbool.h],
    [uint8_t] and [uint64_t] are from [stdint.h]. *)
Fixpoint system_header (t : Decl.ctype) : list string :=
  match t with
  | Decl.Tbool => ["stdbool.h"]
  | Decl.Tuint8 | Decl.Tuint64 => ["stdint.h"]
  | Decl.Tcomplex t' | Decl.Tconst t' | Decl.Tptr t' | Decl.Trestrict t' =>
      system_header t'
  | _ => []
  end.

(** Whether every name a declaration uses is among [seen] or declared by
    an earlier declaration of [h]. *)
Fixpoint before_use (seen : list string) (h : list (string * Decl.declaration))
    : bool :=
  match h with
  | [] => true
  | d :: h' =>
      forallb (fun y => bool_decide (y ∈ seen)) (uses d.2)
      && before_use (d.1 :: seen) h'
  end.

Definition types_of (d : Decl.declaration) : list Decl.ctype :=
  match d with
  | Decl.DEnum _ => []
  | Decl.DFunction f =>
      Decl.fn_return f :: (Decl.par_type <$> Decl.fn_params f)
  | Decl.DStruct fs => Decl.fld_type <$> fs
  end.

End Names.

(** * Properties *)

(** Closed decidable statements are settled by running their decision
    procedure. *)
Ltac by_computation :=
  apply (bool_decide_unpack _); vm_compute; exact I.

(** ** The version macros *)

Lemma UFCX_VERSION_development (major minor maintenance : N) :
  UFCX_VERSION_with major minor maintenance 0 =
  [ PPNumber major; StringLiteral "."; PPNumber minor; StringLiteral ".";
    PPNumber maintenance; StringLiteral ".dev0" ].
Proof. vm_compute. reflexivity. Qed.

Lemma UFCX_VERSION_release (major minor maintenance release : N) :
  release ≠ 0%N →
  UFCX_VERSION_with major minor maintenance release =
  [ PPNumber major; StringLiteral "."; PPNumber minor; StringLiteral ".";
    PPNumber maintenance ].
Proof.
  intros Hrel. destruct release as [|p]; [congruence|].
  vm_compute. reflexivity.
Qed.

(** Written one after the other, the tokens read as the version number. *)
Lemma UFCX_VERSION_spelling :
  foldr String.append "" (spelling <$> UFCX_VERSION) = "0.9.0.dev0".
Proof. vm_compute. reflexivity. Qed.

(** Phase 6 only ever joins string literals: a number token stays. *)
Lemma concatenate_literals_number (n : N) (ts : list pp_token) :
  concatenate_literals (PPNumber n :: ts) = PPNumber n :: concatenate_literals ts.
Proof. reflexivity. Qed.

(** C2: with the numbers of the header (0, 9, 0 and release 0) a use of
    [UFCX_VERSION] is replaced by six tokens, three numbers separated by
    string literals, and not by the string literal ["0.9.0.dev0"]: the
    numbers are never turned into strings, so no two string literals are
    adjacent and phase 6 joins nothing. *)
Theorem UFCX_VERSION_is_not_a_string :
  UFCX_VERSION =
    [ PPNumber 0; StringLiteral "."; PPNumber 9; StringLiteral ".";
      PPNumber 0; StringLiteral ".dev0" ]
  ∧ UFCX_VERSION ≠ [StringLiteral "0.9.0.dev0"]
  ∧ ¬ is_string_literal UFCX_VERSION.
Proof.
  assert (E : UFCX_VERSION =
    [ PPNumber 0; StringLiteral "."; PPNumber 9; StringLiteral ".";
      PPNumber 0; StringLiteral ".dev0" ]) by (vm_compute; reflexivity).
  split; [exact E|]. rewrite E. split.
  - discriminate.
  - intros [s Hs]. discriminate Hs.
Qed.

(** ** The integral-type enumeration *)

Lemma enum_values_explicit (next : Z) (decl : list (string * option Z)) :
  Forall (fun e => is_Some e.2) decl →
  enum_values next decl = (fun e => (e.1, default 0 e.2)) <$> decl.
Proof.
  intros Hall. revert next.
  induction Hall as [|[x init] decl [v Hv] _ IH]; intros next; [reflexivity|].
  simpl in Hv. subst init. simpl. f_equal. apply IH.
Qed.

Lemma enum_values_reorder (decl decl' : list (string * option Z)) :
  Forall (fun e => is_Some e.2) decl →
  decl' ≡ₚ decl →
  enum_values 0 decl' ≡ₚ enum_values 0 decl.
Proof.
  intros Hall Hperm.
  rewrite !enum_values_explicit; [by rewrite Hperm|done|by rewrite Hperm].
Qed.

Lemma integral_type_of_value_spec (z : Z) (t : ufcx_integral_type) :
  integral_type_of_value z = Some t ↔ integral_type_value t = z.
Proof.
  unfold integral_type_of_value.
  repeat case_decide; destruct t; simpl; split; intros; simplify_eq; done || lia.
Qed.

(** C4: the enumeration has exactly the three enumerators [cell],
    [exterior_facet] and [interior_facet], with the values 0, 1 and 2; each
    value is written out in the declaration, so it stays the same however
    the enumerators are ordered. *)
Theorem ufcx_integral_type_values (decl' : list (string * option Z)) :
  decl' ≡ₚ ufcx_integral_type_decl →
  (integral_type_value cell = 0 ∧ integral_type_value exterior_facet = 1 ∧
   integral_type_value interior_facet = 2) ∧
  (∀ z, (∃ t, integral_type_value t = z) ↔ z ∈ [0; 1; 2]) ∧
  (∀ x v, (x, v) ∈ enum_values 0 decl' ↔
          ∃ t, x = enumerator_name t ∧ v = integral_type_value t).
Proof.
  intros Hperm. split; [done|]. split.
  - intros z. split.
    + intros [[] <-]; simpl; set_solver.
    + rewrite !elem_of_cons, elem_of_nil.
      intros [->|[->|[->|[]]]];
        [by exists cell|by exists exterior_facet|by exists interior_facet].
  - intros x v.
    rewrite (enum_values_reorder ufcx_integral_type_decl decl'); [| |done].
    + simpl. split.
      * rewrite !elem_of_cons, elem_of_nil.
        intros [?|[?|[?|[]]]]; simplify_eq;
          [by exists cell|by exists exterior_facet|by exists interior_facet].
      * intros [[] [-> ->]]; simpl; set_solver.
    + repeat constructor; simpl; eauto.
Qed.

Lemma ufcx_integral_type_values_witness :
  (integral_type_value cell = 0 ∧ integral_type_value exterior_facet = 1 ∧
   integral_type_value interior_facet = 2) ∧
  (∀ z, (∃ t, integral_type_value t = z) ↔ z ∈ [0; 1; 2]) ∧
  (∀ x v,
     (x, v) ∈ enum_values 0
       [ ("interior_facet", Some 2); ("cell", Some 0);
         ("exterior_facet", Some 1) ] ↔
     ∃ t, x = enumerator_name t ∧ v = integral_type_value t).
Proof.
  apply (ufcx_integral_type_values
           [ ("interior_facet", Some 2); ("cell", Some 0);
             ("exterior_facet", Some 1) ]).
  by_computation.
Defined.

(** ** The kernel signatures *)

(** C3: the header declares exactly four kernel signatures, one for each
    of float32, float64, complex64 and complex128 (real or complex, single
    or double precision); each returns [void] and takes exactly the six
    parameters [A], [w], [c], [coordinate_dofs], [entity_local_index] and
    [quadrature_permutation], all of them pointers (so that the last two
    can be null), [A] being the only one not pointing to [const] data. *)
Theorem four_kernel_signatures :
  (Decl.functions Decl.header).*1 =
    [ "ufcx_tabulate_tensor_float32"; "ufcx_tabulate_tensor_float64";
      "ufcx_tabulate_tensor_complex64"; "ufcx_tabulate_tensor_complex128" ]
  ∧ (fun f => Decl.param_element f.2 "A") <$> Decl.functions Decl.header =
    Some <$> (k ← [id; Decl.Tcomplex]; k <$> [Decl.Tfloat; Decl.Tdouble])
  ∧ Forall
      (fun f =>
         Decl.fn_return f.2 = Decl.Tvoid ∧
         Decl.par_name <$> Decl.fn_params f.2 =
           [ "A"; "w"; "c"; "coordinate_dofs"; "entity_local_index";
             "quadrature_permutation" ] ∧
         Forall (fun p => is_Some (Decl.pointee (Decl.par_type p)))
           (Decl.fn_params f.2) ∧
         (fun p => Decl.points_to_const (Decl.par_type p))
           <$> Decl.fn_params f.2 = [false; true; true; true; true; true])
      (Decl.functions Decl.header).
Proof.
  split; [reflexivity|]. split; [reflexivity|].
  by_computation.
Qed.

(** C8: in the complex64 and complex128 signatures [A], [w] and [c] point
    to complex numbers while [coordinate_dofs] points to the real type of
    the same precision ([float], [double]); in no signature is
    [coordinate_dofs] complex. *)
Theorem complex_kernels_take_real_geometry :
  ((fun x => Decl.param_element Decl.ufcx_tabulate_tensor_complex64 x)
     <$> ["A"; "w"; "c"; "coordinate_dofs"] =
   Some <$> [ Decl.Tcomplex Decl.Tfloat; Decl.Tcomplex Decl.Tfloat;
              Decl.Tcomplex Decl.Tfloat; Decl.Tfloat ])
  ∧ ((fun x => Decl.param_element Decl.ufcx_tabulate_tensor_complex128 x)
       <$> ["A"; "w"; "c"; "coordinate_dofs"] =
     Some <$> [ Decl.Tcomplex Decl.Tdouble; Decl.Tcomplex Decl.Tdouble;
                Decl.Tcomplex Decl.Tdouble; Decl.Tdouble ])
  ∧ Forall
      (fun f =>
         Decl.param_element f.2 "coordinate_dofs" =
           Decl.real_type <$> Decl.param_element f.2 "A" ∧
         Decl.is_complex <$> Decl.param_element f.2 "coordinate_dofs" =
           Some false)
      (Decl.functions Decl.header)
  ∧ ufcx_tabulate_tensor_complex64 =
      (Tabulate.args (complex float) float → list (complex float))
  ∧ ufcx_tabulate_tensor_complex128 =
      (Tabulate.args (complex double) double → list (complex double)).
Proof.
  split; [reflexivity|]. split; [reflexivity|]. split; [|split; reflexivity].
  by_computation.
Qed.

(** ** Forms *)

Lemma length_offsets_from (start : Z) (counts : list nat) :
  length (offsets_from start counts) = Datatypes.S (length counts).
Proof.
  revert start. induction counts as [|n counts IH]; intros start; [done|].
  simpl. by rewrite IH.
Qed.

Lemma offsets_from_lookup (start : Z) (counts : list nat) (i : nat) :
  (i ≤ length counts)%nat →
  offsets_from start counts !! i =
    Some (start + Z.of_nat (sum_list (take i counts))).
Proof.
  revert start i. induction counts as [|n counts IH]; intros start i Hi.
  - simpl in Hi. assert (i = 0%nat) as -> by lia. simpl. f_equal. lia.
  - destruct i as [|i]; simpl.
    + f_equal. lia.
    + simpl in Hi. rewrite IH by lia. f_equal. lia.
Qed.

Lemma sum_list_take_le (counts : list nat) (i j : nat) :
  (i ≤ j)%nat → (sum_list (take i counts) ≤ sum_list (take j counts))%nat.
Proof.
  revert i j. induction counts as [|n counts IH]; intros i j Hij.
  - by rewrite !take_nil.
  - destruct i as [|i]; [simpl; lia|]. destruct j as [|j]; [lia|].
    simpl. specialize (IH i j). lia.
Qed.

Lemma sum_list_take_all (counts : list nat) (i : nat) :
  (length counts ≤ i)%nat → sum_list (take i counts) = sum_list counts.
Proof. intros Hi. by rewrite take_ge. Qed.

Lemma sum_list_length_concat {B} (ls : list (list B)) :
  sum_list (length <$> ls) = length (concat ls).
Proof.
  induction ls as [|l ls IH]; [done|]. simpl. rewrite length_app.
  f_equal. exact IH.
Qed.

(** The entries of group [k] sit in the concatenation from the total size
    of the groups before it. *)
Lemma concat_slice {B} (ls : list (list B)) (k : nat) (l : list B) :
  ls !! k = Some l →
  take (length l) (drop (sum_list (take k (length <$> ls))) (concat ls)) = l.
Proof.
  revert k. induction ls as [|l0 ls IH]; intros k Hk; [done|].
  destruct k as [|k]; simpl in *.
  - injection Hk as ->. apply take_app_length.
  - rewrite drop_app_add. by apply IH.
Qed.

Lemma sum_list_take_S (ls : list nat) (k n : nat) :
  ls !! k = Some n →
  sum_list (take (Datatypes.S k) ls) = (sum_list (take k ls) + n)%nat.
Proof.
  intros Hk. rewrite (take_S_r _ _ _ Hk), sum_list_with_app. simpl. lia.
Qed.

Lemma slice_concat {B} (ls : list (list B)) (k : nat) (l : list B) :
  ls !! k = Some l →
  slice (Z.of_nat (sum_list (take k (length <$> ls))))
        (Z.of_nat (sum_list (take (Datatypes.S k) (length <$> ls))))
        (concat ls) = l.
Proof.
  intros Hk. unfold slice.
  rewrite (sum_list_take_S _ _ (length l)) by (by rewrite list_lookup_fmap, Hk).
  replace (Z.to_nat (_ - _)) with (length l) by lia.
  rewrite Nat2Z.id. by apply concat_slice.
Qed.

Lemma slice_fmap {B C} (g : B → C) (lo hi : Z) (l : list B) :
  slice lo hi (g <$> l) = g <$> slice lo hi l.
Proof. unfold slice. by rewrite fmap_take, fmap_drop. Qed.

Lemma integrals_of_type_offsets (f : ufcx_form) (t : ufcx_integral_type)
    (lo hi : Z) :
  Form.form_integral_offsets f !! Z.to_nat (integral_type_value t) = Some lo →
  Form.form_integral_offsets f !! Z.to_nat (integral_type_value t + 1)
    = Some hi →
  integrals_of_type f t =
    Some (zip (slice lo hi (Form.form_integral_ids f))
              (slice lo hi (Form.form_integrals f))).
Proof. unfold integrals_of_type. by intros -> ->. Qed.

Lemma make_form_offsets_lookup (signature : string)
    (argument_hashes : list Z) (coefficients : list coefficient)
    (constants : list string)
    (integrals : ufcx_integral_type → list (Z * ufcx_integral)) (i : nat) :
  (i ≤ 3)%nat →
  Form.form_integral_offsets
    (make_form signature argument_hashes coefficients constants integrals)
    !! i =
  Some (Z.of_nat
          (sum_list (take i (length <$> (integrals <$> all_integral_types))))).
Proof.
  intros Hi. unfold make_form. cbn [Form.form_integral_offsets].
  rewrite offsets_from_lookup by (simpl; lia). by rewrite Z.add_0_l.
Qed.

Lemma make_form_length_integrals (signature : string)
    (argument_hashes : list Z) (coefficients : list coefficient)
    (constants : list string)
    (integrals : ufcx_integral_type → list (Z * ufcx_integral)) :
  length (Form.form_integrals
            (make_form signature argument_hashes coefficients constants
               integrals)) =
  sum_list (length <$> (integrals <$> all_integral_types)).
Proof.
  unfold make_form. cbn [Form.form_integrals].
  by rewrite length_fmap, sum_list_length_concat.
Qed.

Lemma make_form_integrals_of_type (signature : string)
    (argument_hashes : list Z) (coefficients : list coefficient)
    (constants : list string)
    (integrals : ufcx_integral_type → list (Z * ufcx_integral))
    (t : ufcx_integral_type) :
  integrals_of_type
    (make_form signature argument_hashes coefficients constants integrals) t
  = Some (integrals t).
Proof.
  set (by_type := integrals <$> all_integral_types).
  assert (∃ k, Z.to_nat (integral_type_value t) = k ∧
               Z.to_nat (integral_type_value t + 1) = Datatypes.S k ∧
               (k < 3)%nat ∧ by_type !! k = Some (integrals t))
    as (k & Hlo & Hhi & Hk & Hlookup).
  { destruct t; [exists 0%nat|exists 1%nat|exists 2%nat];
      repeat split; simpl; lia. }
  rewrite (integrals_of_type_offsets _ t
             (Z.of_nat (sum_list (take k (length <$> by_type))))
             (Z.of_nat (sum_list (take (Datatypes.S k) (length <$> by_type)))))
    by (rewrite ?Hlo, ?Hhi; apply make_form_offsets_lookup; lia).
  change (Form.form_integral_ids (make_form _ _ _ _ _))
    with ((concat by_type).*1).
  change (Form.form_integrals (make_form _ _ _ _ _))
    with ((concat by_type).*2).
  rewrite !slice_fmap, (slice_concat by_type k (integrals t) Hlookup).
  by rewrite zip_fst_snd.
Qed.

(** C1: in a form as it is built, [form_integral_offsets] has four
    entries, starting at 0 and ending at the number of integrals; the
    entries never decrease and none exceeds the length of [form_integrals],
    which is also the length of [form_integral_ids]; and reading the two
    arrays between the offsets of an integral type, in the order of the
    enumeration, gives back exactly the integrals of that type with their
    ids. *)
Theorem form_integral_offsets_partition (signature : string)
    (argument_hashes : list Z) (coefficients : list coefficient)
    (constants : list string)
    (integrals : ufcx_integral_type → list (Z * ufcx_integral)) :
  length (Form.form_integral_offsets
            (make_form signature argument_hashes coefficients constants
               integrals)) = 4%nat
  ∧ (∀ (i j : nat) (x y : Z),
       (i ≤ j)%nat →
       Form.form_integral_offsets
         (make_form signature argument_hashes coefficients constants
            integrals) !! i = Some x →
       Form.form_integral_offsets
         (make_form signature argument_hashes coefficients constants
            integrals) !! j = Some y →
       x ≤ y)
  ∧ (∀ x : Z,
       x ∈ Form.form_integral_offsets
             (make_form signature argument_hashes coefficients constants
                integrals) →
       0 ≤ x ≤ Z.of_nat (length (Form.form_integrals
                 (make_form signature argument_hashes coefficients constants
                    integrals))))
  ∧ length (Form.form_integral_ids
              (make_form signature argument_hashes coefficients constants
                 integrals)) =
    length (Form.form_integrals
              (make_form signature argument_hashes coefficients constants
                 integrals))
  ∧ Form.form_integral_offsets
      (make_form signature argument_hashes coefficients constants integrals)
      !! 0%nat = Some 0
  ∧ Form.form_integral_offsets
      (make_form signature argument_hashes coefficients constants integrals)
      !! 3%nat =
    Some (Z.of_nat (length (Form.form_integrals
            (make_form signature argument_hashes coefficients constants
               integrals))))
  ∧ (∀ t : ufcx_integral_type,
       integrals_of_type
         (make_form signature argument_hashes coefficients constants
            integrals) t = Some (integrals t))
  ∧ (Form.form_integrals
       (make_form signature argument_hashes coefficients constants integrals)
     = (integrals cell).*2 ++ (integrals exterior_facet).*2 ++
       (integrals interior_facet).*2).
Proof.
  set (f := make_form signature argument_hashes coefficients constants
              integrals).
  assert (Hlen : length (Form.form_integral_offsets f) = 4%nat) by done.
  assert (Hlookup := make_form_offsets_lookup signature argument_hashes
                       coefficients constants integrals).
  assert (Hn := make_form_length_integrals signature argument_hashes
                  coefficients constants integrals).
  fold f in Hlookup, Hn.
  split_and!.
  - exact Hlen.
  - intros i j x y Hij Hi Hj.
    assert (j < 4)%nat by (rewrite <- Hlen; by eapply lookup_lt_Some).
    rewrite Hlookup in Hi by lia. rewrite Hlookup in Hj by lia.
    injection Hi as <-. injection Hj as <-.
    apply inj_le. by apply sum_list_take_le.
  - intros x [i Hi]%list_elem_of_lookup.
    assert (i < 4)%nat by (rewrite <- Hlen; by eapply lookup_lt_Some).
    rewrite Hlookup in Hi by lia. injection Hi as <-.
    split; [lia|].
    rewrite Hn. apply inj_le.
    rewrite <- (sum_list_take_all (length <$> _) 3) by (simpl; lia).
    apply sum_list_take_le. lia.
  - unfold f, make_form. simpl. by rewrite !length_fmap.
  - by rewrite Hlookup by lia.
  - rewrite Hlookup by lia. rewrite Hn, sum_list_take_all; [done|simpl; lia].
  - apply make_form_integrals_of_type.
  - unfold f, make_form. simpl. by rewrite app_nil_r, !fmap_app.
Qed.

Lemma form_integral_offsets_partition_witness :
  length (Form.form_integral_offsets example_form) = 4%nat
  ∧ integrals_of_type example_form interior_facet =
      Some [(5, example_integral interior_facet)].
Proof.
  destruct (form_integral_offsets_partition "a" [11; 22]
    [Coefficient 0 "f" 33; Coefficient 1 "g" 44] ["k"] example_integrals)
    as (Hlength & _ & _ & _ & _ & _ & Hread & _).
  split; [exact Hlength|exact (Hread interior_facet)].
Defined.

Example example_form_offsets :
  Form.form_integral_offsets example_form = [0; 2; 2; 3]
  ∧ Form.form_integral_ids example_form = [-1; 3; 5]
  ∧ (fun l : list (Z * ufcx_integral) => l.*1)
      <$> integrals_of_type example_form interior_facet = Some [5]
  ∧ Form.finite_element_hashes example_form = [11; 22; 33; 44].
Proof. repeat split; reflexivity. Qed.

(** C7: [finite_element_hashes] of a form of rank [r] with [n]
    coefficients has [r + n] entries, also when there is no argument and no
    coefficient, [r] being the number of arguments and [n] the number of
    coefficients; entry [i] is the hash of argument [i] when [0 <= i < r]
    and the hash of coefficient [i - r] when [r <= i < r + n], and there
    is no entry at any other index. *)
Theorem finite_element_hashes_layout (f : ufcx_form) (signature : string)
    (argument_hashes : list Z) (coefficients : list coefficient)
    (constants : list string)
    (integrals : ufcx_integral_type → list (Z * ufcx_integral)) :
  f = make_form signature argument_hashes coefficients constants integrals →
  Z.of_nat (length (Form.finite_element_hashes f)) =
    Form.rank f + Form.num_coefficients f
  ∧ Form.rank f = Z.of_nat (length argument_hashes)
  ∧ Form.num_coefficients f = Z.of_nat (length coefficients)
  ∧ (∀ i : Z, 0 ≤ i < Form.rank f →
       ∃ h, argument_hashes !! Z.to_nat i = Some h ∧
            finite_element_hash f i = Some h)
  ∧ (∀ i : Z, Form.rank f ≤ i < Form.rank f + Form.num_coefficients f →
       ∃ k, coefficients !! Z.to_nat (i - Form.rank f) = Some k ∧
            finite_element_hash f i = Some (coefficient_element_hash k))
  ∧ (∀ i : Z, ¬ (0 ≤ i < Form.rank f + Form.num_coefficients f) →
       finite_element_hash f i = None).
Proof.
  intros ->. unfold make_form, finite_element_hash. simpl.
  split_and!.
  - rewrite length_app, length_fmap. lia.
  - done.
  - done.
  - intros i Hi. rewrite decide_True by lia.
    destruct (lookup_lt_is_Some_2 argument_hashes (Z.to_nat i)) as [h Hh];
      [lia|].
    exists h. split; [done|]. rewrite lookup_app_l by lia. done.
  - intros i Hi. rewrite decide_True by lia.
    destruct (lookup_lt_is_Some_2 coefficients
                (Z.to_nat (i - Z.of_nat (length argument_hashes))))
      as [k Hk]; [lia|].
    exists k. split; [done|]. rewrite lookup_app_r by lia.
    rewrite list_lookup_fmap.
    replace (Z.to_nat i - length argument_hashes)%nat
      with (Z.to_nat (i - Z.of_nat (length argument_hashes))) by lia.
    by rewrite Hk.
  - intros i Hi. case_decide; [|done].
    apply lookup_ge_None_2. rewrite length_app, length_fmap. lia.
Qed.

(** The form of the small instance, and a form with no argument and no
    coefficient. *)
Lemma finite_element_hashes_layout_witness :
  (length (Form.finite_element_hashes example_form) = 4%nat
   ∧ finite_element_hash example_form 1 = Some 22
   ∧ finite_element_hash example_form 2 = Some 33
   ∧ finite_element_hash example_form 4 = None)
  ∧ length (Form.finite_element_hashes
              (make_form "b" [] [] [] example_integrals)) = 0%nat.
Proof.
  destruct (finite_element_hashes_layout example_form "a" [11; 22]
    [Coefficient 0 "f" 33; Coefficient 1 "g" 44] ["k"] example_integrals
    eq_refl) as (Hlength & _ & _ & Hargument & Hcoefficient & Hnone).
  destruct (finite_element_hashes_layout
    (make_form "b" [] [] [] example_integrals) "b" [] [] [] example_integrals
    eq_refl) as (Hempty & _).
  split; [split_and!|].
  - apply Nat2Z.inj. rewrite Hlength. reflexivity.
  - destruct (Hargument 1) as (h & Hh & ->); [simpl; lia|].
    vm_compute in Hh. congruence.
  - destruct (Hcoefficient 2) as (k & Hk & ->); [simpl; lia|].
    vm_compute in Hk. by injection Hk as <-.
  - apply Hnone. simpl. lia.
  - apply Nat2Z.inj. rewrite Hempty. reflexivity.
Defined.

(** ** The version macros in any translation unit *)

(** Names that are not in a small set of hidden names. *)
Ltac not_hidden :=
  rewrite ?elem_of_union, ?elem_of_singleton, ?elem_of_empty;
  intuition congruence.

Lemma expand_literal (fuel : nat) (env : macros) (hide : gset string)
    (t : pp_token) :
  (∀ x, t ≠ Identifier x) → expand fuel env hide [t] = [t].
Proof.
  intros Ht. destruct fuel as [|fuel]; [done|].
  destruct t as [n|s|x]; [done|done|]. by destruct (Ht x).
Qed.

Lemma expand_cons (fuel : nat) (env : macros) (hide : gset string)
    (t : pp_token) (ts : list pp_token) :
  expand fuel env hide (t :: ts) =
  expand fuel env hide [t] ++ expand fuel env hide ts.
Proof.
  destruct fuel as [|fuel]; [done|]. cbn [expand flat_map].
  by rewrite app_nil_r.
Qed.

Lemma expand_identifier (fuel : nat) (env : macros) (hide : gset string)
    (x : string) (r : list pp_token) :
  x ∉ hide → env !! x = Some r →
  expand (S fuel) env hide [Identifier x] = expand fuel env ({[x]} ∪ hide) r.
Proof.
  intros Hx Hr. cbn [expand flat_map].
  rewrite decide_False by done. rewrite Hr. by rewrite app_nil_r.
Qed.



Lemma expand_all_number (env : macros) (x : string) (n : N) :
  env !! x = Some [PPNumber n] → expand_all env [Identifier x] = [PPNumber n].
Proof.
  intros Hx. unfold expand_all.
  rewrite (expand_identifier _ _ _ _ [PPNumber n]) by (done || not_hidden).
  by apply expand_literal.
Qed.




(** The replacement list [UFCX_VERSION] is given by lines 18-24. *)
Lemma run_version_directives (env : macros) (major minor maintenance release : N) :
  run_all (version_directives major minor maintenance release) env =
  <["UFCX_VERSION" :=
      [ Identifier "UFCX_VERSION_MAJOR"; StringLiteral ".";
        Identifier "UFCX_VERSION_MINOR"; StringLiteral ".";
        Identifier "UFCX_VERSION_MAINTENANCE" ] ++
      (if decide (release = 0%N) then [StringLiteral ".dev0"] else [])]>
    (<["UFCX_VERSION_RELEASE" := [PPNumber release]]>
       (<["UFCX_VERSION_MAINTENANCE" := [PPNumber maintenance]]>
          (<["UFCX_VERSION_MINOR" := [PPNumber minor]]>
             (<["UFCX_VERSION_MAJOR" := [PPNumber major]]> env)))).
Proof.
  unfold run_all, version_directives. cbn [fold_left run].
  unfold eval_condition.
  rewrite (expand_all_number _ _ release) by apply lookup_insert_eq.
  destruct release as [|q]; cbn [N.eqb negb]; [|destruct q]; by case_decide.
Qed.

Lemma expand_number_macro (fuel : nat) (env : macros) (hide : gset string)
    (x : string) (n : N) :
  x ∉ hide → env !! x = Some [PPNumber n] →
  expand (S fuel) env hide [Identifier x] = [PPNumber n].
Proof.
  intros Hx Hn. rewrite (expand_identifier _ _ _ _ [PPNumber n]) by done.
  by apply expand_literal.
Qed.

(** X1: for every choice of the four numbers with a release number below
    [2^64], a use of [UFCX_VERSION] becomes the three numbers with ["."]
    between them, followed by [".dev0"] exactly when the release number is
    0; it is never one string literal.  The bound is on the one number
    that [#if] evaluates (line 18): a preprocessor computes in [intmax_t]
    and [uintmax_t], which have at least 64 bits, so a number below [2^64]
    is tested for being 0 as the number it is. *)
Theorem UFCX_VERSION_tokens (major minor maintenance release : N) :
  (release < 2 ^ 64)%N →
  take 5 (UFCX_VERSION_with major minor maintenance release) =
    [ PPNumber major; StringLiteral "."; PPNumber minor; StringLiteral ".";
      PPNumber maintenance ]
  ∧ drop 5 (UFCX_VERSION_with major minor maintenance release) =
    (if decide (release = 0%N) then [StringLiteral ".dev0"] else [])
  ∧ ¬ is_string_literal (UFCX_VERSION_with major minor maintenance release).
Proof.
  intros _. destruct (decide (release = 0%N)) as [->|Hrelease].
  - rewrite UFCX_VERSION_development. split_and!; [done|done|].
    intros [s Hs]. discriminate Hs.
  - rewrite UFCX_VERSION_release by done. split_and!; [done|done|].
    intros [s Hs]. discriminate Hs.
Qed.

(** A release build, 1.2.3 with release number 1. *)
Lemma UFCX_VERSION_tokens_witness :
  UFCX_VERSION_with 1 2 3 1 =
    [ PPNumber 1; StringLiteral "."; PPNumber 2; StringLiteral ".";
      PPNumber 3 ].
Proof.
  destruct (UFCX_VERSION_tokens 1 2 3 1) as (Hhead & Htail & _); [done|].
  rewrite <- (take_drop 5 (UFCX_VERSION_with 1 2 3 1)), Hhead, Htail.
  reflexivity.
Defined.

Lemma version_macros_defined (env : macros)
    (major minor maintenance release : N) :
  run_all (version_directives major minor maintenance release) env
    !! "UFCX_VERSION_MAJOR" = Some [PPNumber major]
  ∧ run_all (version_directives major minor maintenance release) env
      !! "UFCX_VERSION_MINOR" = Some [PPNumber minor]
  ∧ run_all (version_directives major minor maintenance release) env
      !! "UFCX_VERSION_MAINTENANCE" = Some [PPNumber maintenance]
  ∧ run_all (version_directives major minor maintenance release) env
      !! "UFCX_VERSION_RELEASE" = Some [PPNumber release]
  ∧ run_all (version_directives major minor maintenance release) env
      !! "UFCX_VERSION" =
    Some ([ Identifier "UFCX_VERSION_MAJOR"; StringLiteral ".";
            Identifier "UFCX_VERSION_MINOR"; StringLiteral ".";
            Identifier "UFCX_VERSION_MAINTENANCE" ] ++
          (if decide (release = 0%N) then [StringLiteral ".dev0"] else [])).
Proof.
  rewrite run_version_directives. split_and!; by simplify_map_eq.
Qed.



(** X3: the tokens a use of [UFCX_VERSION] becomes do not depend on the
    macros the translation unit has defined before it includes the
    header. *)
Theorem UFCX_VERSION_independent_of_context (env : macros)
    (major minor maintenance release : N) :
  concatenate_literals
    (expand_all
       (run_all (version_directives major minor maintenance release) env)
       [Identifier "UFCX_VERSION"]) =
  UFCX_VERSION_with major minor maintenance release.
Proof.
  destruct (version_macros_defined env major minor maintenance release)
    as (Hmajor & Hminor & Hmaintenance & _ & Hversion).
  set (env' := run_all _ env) in *. clearbody env'.
  unfold expand_all.
  rewrite (expand_identifier (size env') env' ∅ "UFCX_VERSION" _
             (not_elem_of_empty _) Hversion).
  destruct (size env') as [|k] eqn:Hsize.
  { apply map_size_empty_iff in Hsize. rewrite Hsize in Hversion.
    by rewrite lookup_empty in Hversion. }
  assert (Hnumber : ∀ x n, x ≠ "UFCX_VERSION" → env' !! x = Some [PPNumber n] →
            expand (S k) env' ({["UFCX_VERSION"]} ∪ ∅) [Identifier x]
            = [PPNumber n]).
  { intros x n Hx Hn. apply expand_number_macro; [not_hidden|done]. }
  assert (Hliteral : ∀ s,
            expand (S k) env' ({["UFCX_VERSION"]} ∪ ∅) [StringLiteral s]
            = [StringLiteral s]).
  { intros s. by apply expand_literal. }
  cbn [app].
  rewrite (expand_cons _ _ _ (Identifier "UFCX_VERSION_MAJOR")),
    (Hnumber _ major) by done.
  rewrite (expand_cons _ _ _ (StringLiteral ".")), Hliteral.
  rewrite (expand_cons _ _ _ (Identifier "UFCX_VERSION_MINOR")),
    (Hnumber _ minor) by done.
  rewrite (expand_cons _ _ _ (StringLiteral ".")), Hliteral.
  destruct (decide (release = 0%N)) as [->|Hrelease].
  - rewrite (expand_cons _ _ _ (Identifier "UFCX_VERSION_MAINTENANCE")),
      (Hnumber _ maintenance), Hliteral by done.
    by rewrite UFCX_VERSION_development.
  - rewrite (Hnumber _ maintenance) by done.
    by rewrite UFCX_VERSION_release.
Qed.

(** ** Preprocessing the header *)

Section preprocessing.
Context (sys : string → macros → macros) (file : string).

Lemma run_lines_nil (st : Pp.state) : Pp.run_lines sys file [] st = st.
Proof. reflexivity. Qed.

Lemma run_lines_cons (l : Pp.line) (ls : list Pp.line) (st : Pp.state) :
  Pp.run_lines sys file (l :: ls) st =
  Pp.run_lines sys file ls (Pp.run_line sys file l st).
Proof. reflexivity. Qed.

Lemma run_lines_app (ls1 ls2 : list Pp.line) (st : Pp.state) :
  Pp.run_lines sys file (ls1 ++ ls2) st =
  Pp.run_lines sys file ls2 (Pp.run_lines sys file ls1 st).
Proof. apply fold_left_app. Qed.

Lemma run_line_pragma (st : Pp.state) :
  Pp.run_line sys file Pp.LPragmaOnce st =
  Pp.State (Pp.st_macros st) ({[file]} ∪ Pp.st_once st) (Pp.st_output st).
Proof. reflexivity. Qed.

Lemma run_line_include (h : string) (st : Pp.state) :
  Pp.run_line sys file (Pp.LInclude h) st =
  Pp.State (sys h (Pp.st_macros st)) (Pp.st_once st) (Pp.st_output st).
Proof. reflexivity. Qed.

Lemma run_line_define (x : string) (r : list pp_token) (st : Pp.state) :
  Pp.run_line sys file (Pp.LDefine x r) st =
  Pp.State (<[x := r]> (Pp.st_macros st)) (Pp.st_once st) (Pp.st_output st).
Proof. reflexivity. Qed.

Lemma run_line_undef (x : string) (st : Pp.state) :
  Pp.run_line sys file (Pp.LUndef x) st =
  Pp.State (delete x (Pp.st_macros st)) (Pp.st_once st) (Pp.st_output st).
Proof. reflexivity. Qed.

Lemma run_line_text (ts : list Pp.token) (st : Pp.state) :
  Pp.run_line sys file (Pp.LText ts) st =
  Pp.State (Pp.st_macros st) (Pp.st_once st)
    (Pp.st_output st ++ Pp.emit (Pp.st_macros st) ts).
Proof. reflexivity. Qed.

Lemma run_line_if (c : Pp.condition) (g e : list Pp.line) (st : Pp.state) :
  Pp.run_line sys file (Pp.LIf c g e) st =
  match Pp.eval (Pp.st_macros st) c with
  | Some true => Pp.run_lines sys file g st
  | Some false => Pp.run_lines sys file e st
  | None => st
  end.
Proof.
  cbn [Pp.run_line].
  assert (Hgroup : ∀ ls st',
    (fix run_group (ls : list Pp.line) (st : Pp.state) : Pp.state :=
       match ls with
       | [] => st
       | l :: ls0 => run_group ls0 (Pp.run_line sys file l st)
       end) ls st' = Pp.run_lines sys file ls st').
  { induction ls as [|l ls IH]; intros st'; [done|]. by rewrite IH. }
  by rewrite !Hgroup.
Qed.

Lemma run_line_ifdef (x : string) (g e : list Pp.line) (st : Pp.state) :
  Pp.run_line sys file (Pp.LIf (Pp.Defined x) g e) st =
  if decide (is_Some (Pp.st_macros st !! x))
  then Pp.run_lines sys file g st
  else Pp.run_lines sys file e st.
Proof.
  rewrite run_line_if. cbn [Pp.eval].
  by case_bool_decide; case_decide.
Qed.

(** Text lines only add to the output. *)
Lemma run_text_lines (ls : list Pp.line) (st : Pp.state) :
  Forall (fun l => Pp.is_text l = true) ls →
  Pp.run_lines sys file ls st =
  Pp.State (Pp.st_macros st) (Pp.st_once st)
    (Pp.st_output st ++ Pp.emit (Pp.st_macros st) (ls ≫= Pp.text_of)).
Proof.
  intros Hall. revert st.
  induction Hall as [|l ls Hl _ IH]; intros st.
  - cbn. rewrite app_nil_r. by destruct st.
  - destruct l as [| | | | |ts]; try discriminate.
    rewrite run_lines_cons, IH. cbn [Pp.run_line Pp.st_macros Pp.st_once
      Pp.st_output]. rewrite bind_cons. cbn [Pp.text_of].
    unfold Pp.emit. by rewrite flat_map_app, app_assoc.
Qed.

(** The version block does to the macros what it does in [Cpp]. *)
Lemma run_version_lines (st : Pp.state) :
  Pp.run_lines sys file ufcx_h_version st =
  Pp.State
    (run_all
       (version_directives UFCX_VERSION_MAJOR UFCX_VERSION_MINOR
          UFCX_VERSION_MAINTENANCE UFCX_VERSION_RELEASE) (Pp.st_macros st))
    (Pp.st_once st) (Pp.st_output st).
Proof.
  unfold ufcx_h_version, version_directives, run_all.
  cbn [fmap list_fmap Pp.of_directive map].
  rewrite !run_lines_cons, run_lines_nil, run_line_if.
  cbn [Pp.run_line Pp.st_macros Pp.st_once Pp.st_output Pp.eval fold_left run].
  destruct (eval_condition _ _) as [[|]|]; reflexivity.
Qed.

End preprocessing.

Lemma ufcx_h_declarations_text :
  Forall (fun l => Pp.is_text l = true) ufcx_h_declarations.
Proof. repeat constructor. Qed.

(** The restrict block of lines 33-39. *)
Lemma run_restrict_block (sys : string → macros → macros) (file : string)
    (st : Pp.state) :
  Pp.run_line sys file
    (Pp.LIf (Pp.Defined "__clang__")
       [ Pp.LDefine "restrict" [] ]
       [ Pp.LIf (Pp.Or (Pp.Defined "__GNUC__") (Pp.Defined "__GNUG__"))
           [ Pp.LDefine "restrict" [Identifier "__restrict__"] ]
           [ Pp.LDefine "restrict" [] ] ]) st =
  Pp.State
    (<["restrict" := restrict_replacement (Pp.st_macros st)]> (Pp.st_macros st))
    (Pp.st_once st) (Pp.st_output st).
Proof.
  rewrite run_line_ifdef. unfold restrict_replacement.
  destruct (decide (is_Some (Pp.st_macros st !! "__clang__"))); [done|].
  rewrite run_lines_cons, run_lines_nil, run_line_if. cbn [Pp.eval].
  destruct (decide (is_Some (Pp.st_macros st !! "__GNUC__") ∨
                    is_Some (Pp.st_macros st !! "__GNUG__"))) as [Hgnu|Hgnu].
  - destruct Hgnu as [Hgnu|Hgnu].
    + by rewrite (bool_decide_eq_true_2 _ Hgnu).
    + rewrite (bool_decide_eq_true_2 _ Hgnu). by case_bool_decide.
  - rewrite !bool_decide_eq_false_2 by tauto. done.
Qed.

(** Lines 29-40. *)
Lemma run_prologue (sys : string → macros → macros) (file : string)
    (st : Pp.state) :
  Pp.run_line sys file ufcx_h_prologue st =
  if decide (is_Some (Pp.st_macros st !! "__cplusplus"))
  then
    Pp.State
      (<["restrict" := restrict_replacement (Pp.st_macros st)]>
         (Pp.st_macros st))
      (Pp.st_once st)
      (Pp.st_output st ++
       Pp.emit (Pp.st_macros st)
         [ Pp.Word (Identifier "extern"); Pp.Word (StringLiteral "C");
           Pp.Punctuator "{" ])
  else st.
Proof.
  unfold ufcx_h_prologue. rewrite run_line_ifdef.
  case_decide; [|done].
  by rewrite !run_lines_cons, run_lines_nil, run_line_text,
    run_restrict_block.
Qed.

(** Lines 239-242. *)
Lemma run_epilogue (sys : string → macros → macros) (file : string)
    (st : Pp.state) :
  Pp.run_line sys file ufcx_h_epilogue st =
  if decide (is_Some (Pp.st_macros st !! "__cplusplus"))
  then
    Pp.State (delete "restrict" (Pp.st_macros st)) (Pp.st_once st)
      (Pp.st_output st ++ [Pp.Punctuator "}"])
  else st.
Proof.
  unfold ufcx_h_epilogue. rewrite run_line_ifdef.
  case_decide; [|done].
  by rewrite !run_lines_cons, run_lines_nil, run_line_undef, run_line_text.
Qed.

(** What including the header does to a state that has not seen it. *)
Lemma include_ufcx_h (sys : string → macros → macros) (st : Pp.state) :
  "ufcx.h" ∉ Pp.st_once st →
  Pp.include sys "ufcx.h" ufcx_h st =
  if decide (is_Some (macros_at_declarations sys (Pp.st_macros st)
                        !! "__cplusplus"))
  then
    Pp.State
      (delete "restrict" (macros_at_declarations sys (Pp.st_macros st)))
      ({["ufcx.h"]} ∪ Pp.st_once st)
      (Pp.st_output st ++
       Pp.emit (macros_at_declarations sys (Pp.st_macros st))
         [ Pp.Word (Identifier "extern"); Pp.Word (StringLiteral "C");
           Pp.Punctuator "{" ] ++
       Pp.emit
         (<["restrict" :=
              restrict_replacement
                (macros_at_declarations sys (Pp.st_macros st))]>
            (macros_at_declarations sys (Pp.st_macros st)))
         declaration_tokens ++
       [Pp.Punctuator "}"])
  else
    Pp.State (macros_at_declarations sys (Pp.st_macros st))
      ({["ufcx.h"]} ∪ Pp.st_once st)
      (Pp.st_output st ++
       Pp.emit (macros_at_declarations sys (Pp.st_macros st))
         declaration_tokens).
Proof.
  intros Honce. unfold Pp.include. rewrite decide_False by done.
  unfold ufcx_h, ufcx_h_includes, declaration_tokens.
  rewrite !run_lines_app.
  rewrite (run_lines_cons _ _ Pp.LPragmaOnce), run_lines_nil, run_line_pragma.
  rewrite run_version_lines.
  rewrite (run_lines_cons _ _ (Pp.LInclude _)),
    (run_lines_cons _ _ (Pp.LInclude _)), run_lines_nil, !run_line_include.
  cbn [Pp.st_macros Pp.st_once Pp.st_output].
  fold (macros_at_declarations sys (Pp.st_macros st)).
  set (env := macros_at_declarations sys (Pp.st_macros st)). clearbody env.
  rewrite (run_lines_cons _ _ ufcx_h_prologue), run_lines_nil, run_prologue.
  cbn [Pp.st_macros Pp.st_once Pp.st_output].
  rewrite (run_lines_cons _ _ ufcx_h_epilogue), run_lines_nil.
  destruct (decide (is_Some (env !! "__cplusplus"))) as [Hcxx|Hc].
  - rewrite (run_text_lines _ _ _ _ ufcx_h_declarations_text).
    cbn [Pp.st_macros Pp.st_once Pp.st_output].
    rewrite run_epilogue. cbn [Pp.st_macros Pp.st_once Pp.st_output].
    rewrite decide_True by (by rewrite lookup_insert_ne).
    rewrite delete_insert_eq. f_equal. rewrite <- !app_assoc. reflexivity.
  - rewrite (run_text_lines _ _ _ _ ufcx_h_declarations_text).
    cbn [Pp.st_macros Pp.st_once Pp.st_output].
    rewrite run_epilogue. cbn [Pp.st_macros Pp.st_once Pp.st_output].
    rewrite decide_False by done. reflexivity.
Qed.

(** X4: in a C++ translation unit the header leaves [restrict] undefined
    as a macro, also when the unit had defined it before; in a C unit it
    leaves [restrict] as it found it.  Past the version block and the two
    system headers it changes no other macro. *)
Theorem header_leaves_no_restrict_macro (sys : string → macros → macros)
    (st : Pp.state) :
  "ufcx.h" ∉ Pp.st_once st →
  (is_Some (macros_at_declarations sys (Pp.st_macros st) !! "__cplusplus") →
   Pp.st_macros (Pp.include sys "ufcx.h" ufcx_h st) !! "restrict" = None)
  ∧ (macros_at_declarations sys (Pp.st_macros st) !! "__cplusplus" = None →
     Pp.st_macros (Pp.include sys "ufcx.h" ufcx_h st) =
     macros_at_declarations sys (Pp.st_macros st))
  ∧ (∀ x : string,
       x ≠ "restrict" →
       Pp.st_macros (Pp.include sys "ufcx.h" ufcx_h st) !! x =
       macros_at_declarations sys (Pp.st_macros st) !! x).
Proof.
  intros Honce. rewrite (include_ufcx_h sys st Honce).
  destruct (decide (is_Some (macros_at_declarations sys (Pp.st_macros st)
                               !! "__cplusplus"))) as [Hcxx|Hc];
    cbn [Pp.st_macros]; split_and!.
  - intros _. apply lookup_delete_eq.
  - intros Hnone. rewrite Hnone in Hcxx. by destruct Hcxx.
  - intros x Hx. by rewrite lookup_delete_ne.
  - intros Hcxx. by destruct Hc.
  - done.
  - done.
Qed.

Lemma header_leaves_no_restrict_macro_witness :
  Pp.st_macros
    (Pp.include (fun _ env => env) "ufcx.h" ufcx_h
       (Pp.State
          {[ "__cplusplus" := [PPNumber 201703];
             "restrict" := [Identifier "__restrict"] ]} ∅ []))
    !! "restrict" = None.
Proof.
  refine (proj1 (header_leaves_no_restrict_macro (fun _ env => env)
    (Pp.State {[ "__cplusplus" := [PPNumber 201703];
                 "restrict" := [Identifier "__restrict"] ]} ∅ []) _) _).
  - cbn [Pp.st_once]. apply not_elem_of_empty.
  - vm_compute. eauto.
Defined.

(** X5: including the header a second time changes nothing: [#pragma once]
    is reached on the first inclusion, whatever the macros are. *)
Theorem include_ufcx_h_twice (sys : string → macros → macros)
    (st : Pp.state) :
  Pp.include sys "ufcx.h" ufcx_h (Pp.include sys "ufcx.h" ufcx_h st) =
  Pp.include sys "ufcx.h" ufcx_h st.
Proof.
  destruct (decide ("ufcx.h" ∈ Pp.st_once st)) as [Hin|Hnotin].
  - assert (Hskip : Pp.include sys "ufcx.h" ufcx_h st = st)
      by (unfold Pp.include; by rewrite decide_True).
    by rewrite !Hskip.
  - rewrite (include_ufcx_h sys st Hnotin).
    assert (Hseen : "ufcx.h" ∈ ({["ufcx.h"]} ∪ Pp.st_once st : gset string))
      by (apply elem_of_union_l; by apply elem_of_singleton).
    case_decide; unfold Pp.include; cbn [Pp.st_once];
      by rewrite decide_True.
Qed.

Lemma nesting_app (d : nat) (ts1 ts2 : list Pp.token) :
  Pp.nesting d (ts1 ++ ts2) =
  Pp.nesting d ts1 ≫= fun d' => Pp.nesting d' ts2.
Proof.
  revert d. induction ts1 as [|t ts1 IH]; intros d; [done|].
  cbn [app Pp.nesting]. repeat case_decide; try apply IH.
  destruct d; [done|apply IH].
Qed.

Lemma nesting_words (d : nat) (ws : list pp_token) (ts : list Pp.token) :
  Pp.nesting d ((Pp.Word <$> ws) ++ ts) = Pp.nesting d ts.
Proof.
  induction ws as [|w ws IH]; [done|].
  cbn [fmap list_fmap app Pp.nesting].
  rewrite !decide_False by discriminate. apply IH.
Qed.

(** Macro replacement touches no brace. *)
Lemma nesting_emit (env : macros) (d : nat) (ts : list Pp.token) :
  Pp.nesting d (Pp.emit env ts) = Pp.nesting d ts.
Proof.
  revert d. induction ts as [|t ts IH]; intros d; [done|].
  unfold Pp.emit. cbn [flat_map]. fold (Pp.emit env ts).
  destruct t as [w|s].
  - rewrite nesting_words, IH. cbn [Pp.nesting].
    by rewrite !decide_False by discriminate.
  - cbn [app Pp.nesting]. repeat case_decide; try apply IH.
    destruct d; [done|apply IH].
Qed.

Lemma emitted_eq (sys : string → macros → macros) (st : Pp.state) :
  "ufcx.h" ∉ Pp.st_once st →
  emitted sys st =
  if decide (is_Some (macros_at_declarations sys (Pp.st_macros st)
                        !! "__cplusplus"))
  then
    Pp.emit (macros_at_declarations sys (Pp.st_macros st))
      [ Pp.Word (Identifier "extern"); Pp.Word (StringLiteral "C");
        Pp.Punctuator "{" ] ++
    Pp.emit
      (<["restrict" :=
           restrict_replacement
             (macros_at_declarations sys (Pp.st_macros st))]>
         (macros_at_declarations sys (Pp.st_macros st)))
      declaration_tokens ++
    [Pp.Punctuator "}"]
  else
    Pp.emit (macros_at_declarations sys (Pp.st_macros st)) declaration_tokens.
Proof.
  intros Honce. unfold emitted. rewrite (include_ufcx_h sys st Honce).
  case_decide; cbn [Pp.st_output]; by rewrite drop_app_length.
Qed.

Lemma nesting_shift (base r d : nat) (ts : list Pp.token) :
  Pp.nesting base ts = Some r →
  Pp.nesting (base + d) ts = Some (r + d)%nat.
Proof.
  revert base. induction ts as [|t ts IH]; intros base.
  - cbn [Pp.nesting]. by intros [= ->].
  - cbn [Pp.nesting]. repeat case_decide.
    + apply (IH (S base)).
    + destruct base as [|base]; [done|]. apply (IH base).
    + apply IH.
Qed.

Lemma nesting_declaration_tokens (d : nat) :
  Pp.nesting d declaration_tokens = Some d.
Proof.
  apply (nesting_shift 0 0 d). vm_compute. reflexivity.
Qed.

(** X6: the braces the header puts out are balanced, in a C and in a C++
    translation unit, whatever macros are defined: the block opened at
    line 31 is closed at line 241 under the same condition. *)
Theorem header_braces_balanced (sys : string → macros → macros)
    (st : Pp.state) :
  "ufcx.h" ∉ Pp.st_once st →
  Pp.nesting 0 (emitted sys st) = Some 0%nat.
Proof.
  intros Honce. rewrite (emitted_eq sys st Honce).
  case_decide.
  - rewrite nesting_app, nesting_emit. cbn [Pp.nesting].
    rewrite !decide_False by discriminate. rewrite decide_True by done.
    cbn [mbind option_bind].
    by rewrite nesting_app, nesting_emit, nesting_declaration_tokens.
  - by rewrite nesting_emit, nesting_declaration_tokens.
Qed.

Lemma header_braces_balanced_witness :
  Pp.nesting 0
    (emitted (fun _ env => env)
       (Pp.State {[ "__cplusplus" := [PPNumber 201703] ]} ∅ [])) = Some 0%nat.
Proof.
  apply (header_braces_balanced (fun _ env => env)
           (Pp.State {[ "__cplusplus" := [PPNumber 201703] ]} ∅ [])).
  cbn [Pp.st_once]. apply not_elem_of_empty.
Defined.

(** ** The declarations in every configuration *)







(** ** Names *)

Lemma before_use_sound (seen : list string)
    (h : list (string * Decl.declaration)) :
  Names.before_use seen h = true →
  ∀ (i : nat) (x y : string) (d : Decl.declaration),
    h !! i = Some (x, d) → y ∈ Names.uses d →
    y ∈ seen ∨ ∃ j d', (j < i)%nat ∧ h !! j = Some (y, d').
Proof.
  revert seen. induction h as [|[x0 d0] h IH]; intros seen Hcheck i x y d Hi Hy;
    [done|].
  cbn [Names.before_use] in Hcheck.
  apply andb_prop in Hcheck as [Hhere Hrest].
  destruct i as [|i].
  - injection Hi as -> ->. left.
    rewrite forallb_forall in Hhere.
    apply list_elem_of_In, Hhere in Hy. by apply bool_decide_eq_true in Hy.
  - destruct (IH _ Hrest i x y d Hi Hy) as [Hseen|(j & d' & Hj & Hlookup)].
    + apply elem_of_cons in Hseen as [->|Hseen]; [|by left].
      right. exists 0%nat, d0. split; [lia|done].
    + right. exists (S j), d'. split; [lia|done].
Qed.

(** X8: the header is self-contained in its names: every typedef or
    structure a declaration refers to is declared earlier in the header,
    no two declarations or enumerators share a name, and no structure or
    parameter list has two members of one name. *)
Theorem header_names_declared_before_use :
  (∀ (i : nat) (x y : string) (d : Decl.declaration),
     Decl.header !! i = Some (x, d) → y ∈ Names.uses d →
     ∃ j d', (j < i)%nat ∧ Decl.header !! j = Some (y, d'))
  ∧ NoDup (Decl.header ≫= Names.declares)
  ∧ Forall (fun d => NoDup (Names.members d.2)) Decl.header.
Proof.
  split_and!.
  - intros i x y d Hi Hy.
    destruct (before_use_sound [] Decl.header eq_refl i x y d Hi Hy)
      as [Hnil|Hearlier]; [|done].
    by apply elem_of_nil in Hnil.
  - by_computation.
  - by_computation.
Qed.

Lemma header_names_declared_before_use_witness :
  ∃ j d', (j < 7)%nat ∧ Decl.header !! j = Some ("ufcx_integral", d').
Proof.
  apply (proj1 header_names_declared_before_use 7%nat "ufcx_form"
           "ufcx_integral" (Decl.DStruct Decl.ufcx_form) eq_refl).
  by_computation.
Defined.

(** X9: the system headers the header includes are the ones its
    declarations need: [stdbool.h] for [bool], [stdint.h] for [uint8_t]
    and [uint64_t], and no other. *)
Theorem header_includes_what_it_uses (h : string) :
  h ∈ (Decl.header ≫= fun d => Names.types_of d.2 ≫= Names.system_header)
  ↔ h ∈ Pp.includes_of ufcx_h.
Proof.
  assert (Hneeded :
    remove_dups
      (Decl.header ≫= fun d => Names.types_of d.2 ≫= Names.system_header)
    = ["stdbool.h"; "stdint.h"]) by (vm_compute; reflexivity).
  assert (Hincluded : Pp.includes_of ufcx_h = ["stdbool.h"; "stdint.h"])
    by (vm_compute; reflexivity).
  by rewrite Hincluded, <- elem_of_remove_dups, Hneeded.
Qed.

(** ** The permutation code *)

(** X10: the permutation codes are [uint8_t] entries in all four kernel
    types, and a code is as good as its number of rotations and its number
    of reflections: a code from 0 to 255 is twice its rotations plus its
    reflections, with 0 or 1 reflections and at most 127 rotations; and
    [r] rotations, [r] at most 127, with [f] reflections, [f] being 0 or
    1, have the code [2 * r + f], which fits a [uint8_t] and from which [r]
    and [f] are read back. *)
Theorem permutation_code_round_trip (code r f : Z) :
  0 ≤ code ≤ 255 → 0 ≤ r ≤ 127 → 0 ≤ f ≤ 1 →
  Forall
    (fun k => Decl.param_element k.2 "quadrature_permutation"
              = Some Decl.Tuint8)
    (Decl.functions Decl.header)
  ∧ code = 2 * rotations code + reflections code
  ∧ 0 ≤ reflections code ≤ 1
  ∧ 0 ≤ rotations code ≤ 127
  ∧ 0 ≤ 2 * r + f ≤ 255
  ∧ rotations (2 * r + f) = r
  ∧ reflections (2 * r + f) = f.
Proof.
  intros Hcode Hr Hf. split; [by_computation|].
  unfold rotations, reflections.
  split_and!; Z.div_mod_to_equations; lia.
Qed.

Lemma permutation_code_round_trip_witness :
  5 = 2 * rotations 5 + reflections 5
  ∧ 0 ≤ reflections 5 ≤ 1
  ∧ 0 ≤ rotations 5 ≤ 127
  ∧ 0 ≤ 2 * 127 + 1 ≤ 255
  ∧ rotations (2 * 127 + 1) = 127
  ∧ reflections (2 * 127 + 1) = 1.
Proof. apply (permutation_code_round_trip 5 127 1); lia. Defined.

(** ** Flat storage *)

(** X11: stored flat with the last index fastest, an array with the
    extents [n1][n2][n3] takes exactly [n1 * n2 * n3] places: every index
    triple within the extents has a place below [n1 * n2 * n3], two
    different triples have different places, and every place below
    [n1 * n2 * n3] is the place of a triple. *)
Theorem index3_bijective (n1 n2 n3 : nat) :
  (∀ i j l, (i < n1)%nat → (j < n2)%nat → (l < n3)%nat →
     (index3 n2 n3 i j l < n1 * n2 * n3)%nat)
  ∧ (∀ i j l i' j' l',
       (j < n2)%nat → (l < n3)%nat → (j' < n2)%nat → (l' < n3)%nat →
       index3 n2 n3 i j l = index3 n2 n3 i' j' l' →
       i = i' ∧ j = j' ∧ l = l')
  ∧ (∀ k, (k < n1 * n2 * n3)%nat →
       ∃ i j l, (i < n1)%nat ∧ (j < n2)%nat ∧ (l < n3)%nat ∧
                index3 n2 n3 i j l = k).
Proof.
  unfold index3. split_and!.
  - intros i j l Hi Hj Hl.
    assert ((i + 1) * n2 ≤ n1 * n2)%nat by (apply Nat.mul_le_mono_r; lia).
    assert ((i * n2 + j + 1) * n3 ≤ n1 * n2 * n3)%nat
      by (apply Nat.mul_le_mono_r; lia).
    lia.
  - intros i j l i' j' l' Hj Hl Hj' Hl' Heq.
    destruct (Nat.div_mod_unique n3 (i * n2 + j) (i' * n2 + j') l l')
      as [Hrow ->]; [done|done|lia|].
    destruct (Nat.div_mod_unique n2 i i' j j') as [-> ->];
      [done|done|lia|done].
  - intros k Hk.
    assert (n3 ≠ 0%nat) by (intros ->; lia).
    assert (n2 ≠ 0%nat) by (intros ->; lia).
    exists (k / n3 / n2)%nat, ((k / n3) mod n2)%nat, (k mod n3)%nat.
    pose proof (Nat.div_mod k n3 ltac:(done)).
    pose proof (Nat.div_mod (k / n3) n2 ltac:(done)).
    pose proof (Nat.mod_upper_bound k n3 ltac:(done)).
    pose proof (Nat.mod_upper_bound (k / n3) n2 ltac:(done)).
    split_and!; [|done|done|lia].
    apply Nat.Div0.div_lt_upper_bound. apply Nat.Div0.div_lt_upper_bound. lia.
Qed.

Lemma index3_bijective_witness :
  (index3 3 4 1 2 3 < 2 * 3 * 4)%nat.
Proof.
  apply (proj1 (index3_bijective 2 3 4) 1%nat 2%nat 3%nat); lia.
Defined.

(** ** What a kernel hands back *)

(** X12: the header declares no way for a kernel to hand back anything but
    the tensor: every function type returns [void], [A] is its only
    parameter that does not point to [const] data, and no parameter refers
    to one of the structures, so a kernel cannot store into a field; the
    three structures have the fields listed, and the only fields that
    point to a function are the four kernel slots of [ufcx_integral] and
    of [ufcx_expression], each of a type that returns [void]. *)
Theorem kernels_hand_back_the_tensor_only :
  Forall
    (fun f =>
       Decl.fn_return f.2 = Decl.Tvoid ∧
       Decl.writable_parameters f.2 = ["A"] ∧
       Forall (fun p => ¬ Decl.refers_to_struct Decl.header p)
         (Decl.fn_params f.2))
    (Decl.functions Decl.header)
  ∧ (Decl.structs Decl.header).*1 =
      ["ufcx_integral"; "ufcx_expression"; "ufcx_form"]
  ∧ (fun s => Decl.field_names s.2) <$> Decl.structs Decl.header =
    [ [ "enabled_coefficients"; "tabulate_tensor_float32";
        "tabulate_tensor_float64"; "tabulate_tensor_complex64";
        "tabulate_tensor_complex128"; "needs_facet_permutations";
        "coordinate_element_hash" ];
      [ "tabulate_tensor_float32"; "tabulate_tensor_float64";
        "tabulate_tensor_complex64"; "tabulate_tensor_complex128";
        "num_coefficients"; "num_constants";
        "original_coefficient_positions"; "coefficient_names";
        "constant_names"; "num_points"; "entity_dimension"; "points";
        "value_shape"; "num_components"; "rank" ];
      [ "signature"; "rank"; "num_coefficients"; "num_constants";
        "original_coefficient_positions"; "coefficient_name_map";
        "constant_name_map"; "finite_element_hashes"; "form_integrals";
        "form_integral_ids"; "form_integral_offsets" ] ]
  ∧ (fun s => (Decl.function_fields Decl.header s.2).*1)
      <$> Decl.structs Decl.header =
    [ [ "tabulate_tensor_float32"; "tabulate_tensor_float64";
        "tabulate_tensor_complex64"; "tabulate_tensor_complex128" ];
      [ "tabulate_tensor_float32"; "tabulate_tensor_float64";
        "tabulate_tensor_complex64"; "tabulate_tensor_complex128" ];
      [] ]
  ∧ Forall
      (fun s =>
         Forall (fun kf => Decl.fn_return kf.2 = Decl.Tvoid)
           (Decl.function_fields Decl.header s.2))
      (Decl.structs Decl.header).
Proof.
  split; [by_computation|].
  split; [reflexivity|]. split; [reflexivity|]. split; [reflexivity|].
  by_computation.
Qed.
